(** * dex: a Docker metrics collector for Prometheus

    A shallow embedding of [collector.go] (package main of nikicat/dex) and
    the verification of its collection pipeline: name filtering, lifecycle
    metrics, the per-container resource metrics (CPU, memory, network,
    block I/O, pids) and the handling of runtime-API failures.

    Conventions of the embedding:
    - a Go [uint64] is a [Z] in [0, 2^64); [+] and [-] wrap ([U64.add],
      [U64.sub]);
    - a Go [float64] is a [spec_float] at precision 53 and maximal exponent
      1024, with the IEEE-754 operations of the Standard Library's
      [SpecFloat] (round to nearest, ties to even);
    - a Go [string] is a [string] (a sequence of bytes);
    - a Go [map[string]T] is a [gmap string T]; reading a missing key
      yields the zero value of [T];
    - the channel [ch], the logrus output and the calls made on the Docker
      client are components of an explicit process state, threaded through
      a small state-and-exit monad; [log.Fatal] ends the process. *)

From Stdlib Require Import ZArith Bool List Ascii String Permutation Lia.
From Stdlib Require Import Floats.SpecFloat.
From stdpp Require Import gmap strings.
Import ListNotations.

Local Open Scope string_scope.
Local Open Scope Z_scope.

(** ** Unsigned 64-bit integers *)

Module U64.

Definition modulus : Z := 2 ^ 64.

Definition wrap (z : Z) : Z := z mod modulus.

Definition add (a b : Z) : Z := wrap (a + b).

Definition sub (a b : Z) : Z := wrap (a - b).

Definition in_range (z : Z) : Prop := 0 <= z < modulus.

End U64.

(** ** IEEE-754 binary64 *)

Module F64.

Definition float64 : Type := spec_float.

Definition prec : Z := 53.
Definition emax : Z := 1024.

(** [float64(x)] for an integer [x] ([uint64] or [int]). *)
Definition of_Z (z : Z) : float64 := binary_normalize prec emax z 0 false.

Definition div (x y : float64) : float64 := SFdiv prec emax x y.
Definition mul (x y : float64) : float64 := SFmul prec emax x y.
Definition eqb (x y : float64) : bool := SFeqb x y.

Definition zero : float64 := S754_zero false.
Definition one : float64 := of_Z 1.
Definition nan : float64 := S754_nan.
Definition pinf : float64 := S754_infinity false.

(** The literals [100.0] and [1e9] of the source; both are integers
    below [2^53], hence exact. *)
Definition c100 : float64 := of_Z 100.
Definition c1e9 : float64 := of_Z 1000000000.

Definition is_zero (x : float64) : bool :=
  match x with
  | S754_zero _ => true
  | _ => false
  end.

(** A number (not [NaN]) whose sign bit is [sx]. *)
Definition has_sign (sx : bool) (x : float64) : bool :=
  match x with
  | S754_zero s | S754_infinity s | S754_finite s _ _ => Bool.eqb s sx
  | S754_nan => false
  end.

End F64.

Abbreviation float64 := F64.float64.

(** ** Strings *)

Definition byte_val (c : ascii) : Z := Z.of_N (N_of_ascii c).

(** One step of the ASCII loop of [strings.EqualFold]: the bytes are equal,
    or the smaller one is an upper-case letter and the larger one is its
    lower-case form. *)
Definition fold_eq (a b : ascii) : bool :=
  let sr := byte_val a in
  let tr := byte_val b in
  if sr =? tr then true
  else
    let lo := Z.min sr tr in
    let hi := Z.max sr tr in
    (65 <=? lo) && (lo <=? 90) && (hi =? lo + 32).

(** [strings.EqualFold(s, t)] for the way the source calls it: [t] is one
    of the ASCII literals ["read"] and ["write"]. The letters of these
    literals have no case-folding partner outside ASCII, so a byte of [s]
    outside ASCII never matches and the byte-wise loop decides the
    comparison. *)
Fixpoint EqualFold (s t : string) : bool :=
  match s, t with
  | EmptyString, EmptyString => true
  | String a s', String b t' => fold_eq a b && EqualFold s' t'
  | _, _ => false
  end.

(** [strings.Join(elems, sep)] *)
Fixpoint Join (elems : list string) (sep : string) : string :=
  match elems with
  | [] => ""
  | [e] => e
  | e :: rest => (e ++ sep ++ Join rest sep)%string
  end.

(** [strings.TrimPrefix(s, prefix)] *)
Definition TrimPrefix (s pre : string) : string :=
  if String.prefix pre s
  then String.substring (String.length pre) (String.length s - String.length pre)%nat s
  else s.

(** ** Data of the Docker API, as far as the collector reads it *)

Definition error : Type := string.

Inductive result (A : Type) : Type :=
| Ok (a : A)
| Err (e : error).
Arguments Ok {A} a.
Arguments Err {A} e.

(** [container.Summary] *)
Record Summary := {
  ID : string;
  Names : list string;
  State : string
}.

(** [container.InspectResponse]; [RestartCount] is a Go [int]. *)
Record InspectResponse := { RestartCount : Z }.

Record CPUUsage := { TotalUsage : Z }.

Record CPUStats := {
  CPUUsage_ : CPUUsage;
  SystemUsage : Z
}.

Record MemoryStats := {
  Usage : Z;
  Limit : Z;
  Stats : gmap string Z
}.

Record NetworkStats := {
  RxBytes : Z;
  TxBytes : Z
}.

Record BlkioStatEntry := {
  Op : string;
  Value : Z
}.

Record BlkioStats := { IoServiceBytesRecursive : list BlkioStatEntry }.

Record PidsStats := { Current : Z }.

(** [container.StatsResponse] *)
Record StatsResponse := {
  CPUStats_ : CPUStats;
  PreCPUStats : CPUStats;
  MemoryStats_ : MemoryStats;
  Networks : gmap string NetworkStats;
  BlkioStats_ : BlkioStats;
  PidsStats_ : PidsStats
}.

(** The zero value of [container.StatsResponse], which is what
    [var containerStats container.StatsResponse] declares. *)
Definition zeroNetworkStats : NetworkStats := {| RxBytes := 0; TxBytes := 0 |}.

Definition zeroStatsResponse : StatsResponse := {|
  CPUStats_ := {| CPUUsage_ := {| TotalUsage := 0 |}; SystemUsage := 0 |};
  PreCPUStats := {| CPUUsage_ := {| TotalUsage := 0 |}; SystemUsage := 0 |};
  MemoryStats_ := {| Usage := 0; Limit := 0; Stats := ∅ |};
  Networks := ∅;
  BlkioStats_ := {| IoServiceBytesRecursive := [] |};
  PidsStats_ := {| Current := 0 |}
|}.

(** Every [uint64] field is in range. *)
Definition cpu_in_range (c : CPUStats) : Prop :=
  U64.in_range (TotalUsage (CPUUsage_ c)) /\ U64.in_range (SystemUsage c).

Definition mem_in_range (m : MemoryStats) : Prop :=
  U64.in_range (Usage m) /\ U64.in_range (Limit m) /\
  forall k v, Stats m !! k = Some v -> U64.in_range v.

(** The body of a stats response ([io.ReadCloser]) seen through the two
    things the collector does with it: [json.NewDecoder(Body).Decode(&v)]
    on a zero-valued [v], which leaves [decoded] in [v] and returns
    [decodeErr], and [Body.Close()], which returns [closeErr]. *)
Record StatsBody := {
  decoded : StatsResponse;
  decodeErr : option error;
  closeErr : option error
}.

(** [client.Client]: what the runtime answers to the three calls. *)
Record Client := {
  ContainerList : result (list Summary);
  ContainerInspect : string -> result InspectResponse;
  ContainerStats : string -> result StatsBody
}.

(** [regexp.Regexp], by the contract of [FindStringSubmatch]: [nil] when
    the text does not match, and otherwise the whole match followed by one
    entry per capture group of the pattern. *)
Record Regexp := {
  NumSubexp : nat;
  FindStringSubmatch : string -> list string;
  FindStringSubmatch_length :
    forall s, FindStringSubmatch s = [] \/
              length (FindStringSubmatch s) = S NumSubexp
}.

Record DockerCollector := {
  cli : Client;
  containerRe : Regexp
}.

(** ** Prometheus metrics *)

Inductive ValueType := CounterValue | GaugeValue.

(** [prometheus.Desc] as built by [prometheus.NewDesc(fqName, help,
    variableLabels, nil)]. *)
Record Desc := {
  fqName : string;
  help : string;
  variableLabels : list string
}.

Definition NewDesc (fq hlp : string) (labels : list string) : Desc :=
  {| fqName := fq; help := hlp; variableLabels := labels |}.

(** A constant metric, as built by [prometheus.MustNewConstMetric]. The
    source always passes one label value for the one variable label of
    [labelCname], and container names are ASCII, so the constructor never
    panics. *)
Record Metric := {
  desc : Desc;
  valueType : ValueType;
  value : float64;
  labelValues : list string
}.

Definition MustNewConstMetric (d : Desc) (t : ValueType) (v : float64)
    (label : string) : Metric :=
  {| desc := d; valueType := t; value := v; labelValues := [label] |}.

Definition labelCname : list string := ["container_name"].

(** ** The process: channel, log and client calls *)

Inductive Level := ErrorLevel | FatalLevel.

Record Entry := {
  level : Level;
  message : string
}.

Inductive Call :=
| CallContainerList (all : bool)
| CallContainerInspect (id : string)
| CallContainerStats (id : string) (stream : bool).

Record Process := {
  ch : list Metric;      (* metrics sent on the channel, oldest first *)
  logged : list Entry;   (* log output, oldest first *)
  calls : list Call      (* calls made on the client, oldest first *)
}.

Definition start : Process := {| ch := []; logged := []; calls := [] |}.

(** A computation either goes on with a value or ends the process
    ([os.Exit]). *)
Inductive Step (A : Type) : Type :=
| Next (a : A) (p : Process)
| Exit (code : Z) (p : Process).
Arguments Next {A} a p.
Arguments Exit {A} code p.

Definition Go (A : Type) : Type := Process -> Step A.

Definition ret {A} (a : A) : Go A := fun p => Next a p.

Definition bind {A B} (m : Go A) (k : A -> Go B) : Go B :=
  fun p =>
    match m p with
    | Next a p' => k a p'
    | Exit c p' => Exit c p'
    end.

Declare Scope go_scope.
Delimit Scope go_scope with go.
Notation "x <- m ;; k" := (bind m (fun x => k))
  (at level 100, m at next level, right associativity) : go_scope.
Notation "m ;; k" := (bind m (fun _ => k))
  (at level 100, right associativity) : go_scope.

(** [ch <- m] *)
Definition send (m : Metric) : Go unit :=
  fun p => Next tt {| ch := ch p ++ [m]; logged := logged p; calls := calls p |}.

Definition log_entry (l : Level) (msg : string) : Go unit :=
  fun p => Next tt {| ch := ch p;
                      logged := logged p ++ [{| level := l; message := msg |}];
                      calls := calls p |}.

(** [log.Error(args...)] *)
Definition log_Error (msg : string) : Go unit := log_entry ErrorLevel msg.

(** [log.Fatal(args...)]: logs, then calls [os.Exit(1)]. *)
Definition log_Fatal {A} (msg : string) : Go A :=
  fun p =>
    match log_entry FatalLevel msg p with
    | Next _ p' => Exit 1 p'
    | Exit c p' => Exit c p'
    end.

Definition record_call (c : Call) : Go unit :=
  fun p => Next tt {| ch := ch p; logged := logged p; calls := calls p ++ [c] |}.

Definition final {A} (s : Step A) : Process :=
  match s with
  | Next _ p => p
  | Exit _ p => p
  end.

Definition exited {A} (s : Step A) : bool :=
  match s with
  | Next _ _ => false
  | Exit _ _ => true
  end.

(** ** The collector

    The methods below have the receiver [c *DockerCollector] in the source;
    only [processContainer] and [Collect] read it. *)

Local Open Scope go_scope.

Definition CPUMetrics (containerStats : StatsResponse) (cName : string) : Go unit :=
  let totalUsage := TotalUsage (CPUUsage_ (CPUStats_ containerStats)) in
  let cpuDelta :=
    U64.sub totalUsage (TotalUsage (CPUUsage_ (PreCPUStats containerStats))) in
  let sysemDelta :=
    U64.sub (SystemUsage (CPUStats_ containerStats))
            (SystemUsage (PreCPUStats containerStats)) in
  let cpuUtilization :=
    F64.mul (F64.div (F64.of_Z cpuDelta) (F64.of_Z sysemDelta)) F64.c100 in
  send (MustNewConstMetric
          (NewDesc "dex_cpu_utilization_percent" "CPU utilization in percent"
                   labelCname)
          GaugeValue cpuUtilization cName) ;;
  send (MustNewConstMetric
          (NewDesc "dex_cpu_utilization_seconds_total"
                   "Cumulative CPU utilization in seconds" labelCname)
          CounterValue (F64.div (F64.of_Z totalUsage) F64.c1e9) cName).

(** [m[key]] on a Go map: the zero value when the key is missing. *)
Definition index {V} (m : gmap string V) (key : string) (zero : V) : V :=
  default zero (m !! key).

Definition networkMetrics (containerStats : StatsResponse) (cName : string) : Go unit :=
  send (MustNewConstMetric
          (NewDesc "dex_network_rx_bytes_total" "Network received bytes total"
                   labelCname)
          CounterValue
          (F64.of_Z (RxBytes (index (Networks containerStats) "eth0" zeroNetworkStats)))
          cName) ;;
  send (MustNewConstMetric
          (NewDesc "dex_network_tx_bytes_total" "Network sent bytes total"
                   labelCname)
          CounterValue
          (F64.of_Z (TxBytes (index (Networks containerStats) "eth0" zeroNetworkStats)))
          cName).

Definition memoryMetrics (containerStats : StatsResponse) (cName : string) : Go unit :=
  let memoryUsage :=
    U64.sub (Usage (MemoryStats_ containerStats))
            (index (Stats (MemoryStats_ containerStats)) "cache" 0) in
  let memoryTotal := Limit (MemoryStats_ containerStats) in
  let memoryUtilization :=
    F64.mul (F64.div (F64.of_Z memoryUsage) (F64.of_Z memoryTotal)) F64.c100 in
  send (MustNewConstMetric
          (NewDesc "dex_memory_usage_bytes" "Total memory usage bytes" labelCname)
          CounterValue (F64.of_Z memoryUsage) cName) ;;
  send (MustNewConstMetric
          (NewDesc "dex_memory_total_bytes" "Total memory bytes" labelCname)
          GaugeValue (F64.of_Z memoryTotal) cName) ;;
  send (MustNewConstMetric
          (NewDesc "dex_memory_utilization_percent" "Memory utilization percent"
                   labelCname)
          GaugeValue memoryUtilization cName).

(** The body of the loop of [blockIoMetrics], on the pair
    [(readTotal, writeTotal)]. *)
Definition blockIoStep (acc : Z * Z) (b : BlkioStatEntry) : Z * Z :=
  let '(readTotal, writeTotal) := acc in
  let readTotal :=
    if EqualFold (Op b) "read" then U64.add readTotal (Value b) else readTotal in
  let writeTotal :=
    if EqualFold (Op b) "write" then U64.add writeTotal (Value b) else writeTotal in
  (readTotal, writeTotal).

Definition blockIoTotals (records : list BlkioStatEntry) : Z * Z :=
  fold_left blockIoStep records (0, 0).

Definition blockIoMetrics (containerStats : StatsResponse) (cName : string) : Go unit :=
  let '(readTotal, writeTotal) :=
    blockIoTotals (IoServiceBytesRecursive (BlkioStats_ containerStats)) in
  send (MustNewConstMetric
          (NewDesc "dex_block_io_read_bytes_total" "Block I/O read bytes" labelCname)
          CounterValue (F64.of_Z readTotal) cName) ;;
  send (MustNewConstMetric
          (NewDesc "dex_block_io_write_bytes_total" "Block I/O write bytes" labelCname)
          CounterValue (F64.of_Z writeTotal) cName).

Definition pidsMetrics (containerStats : StatsResponse) (cName : string) : Go unit :=
  send (MustNewConstMetric
          (NewDesc "dex_pids_current" "Current number of pids in the cgroup"
                   labelCname)
          CounterValue (F64.of_Z (Current (PidsStats_ containerStats))) cName).

(** [if err != nil { log.Error(prefix, err) }] *)
Definition log_if_error (pre : string) (e : option error) : Go unit :=
  match e with
  | Some err => log_Error (pre ++ err)%string
  | None => ret tt
  end.

Definition processContainer (c : DockerCollector) (cont : Summary) : Go unit :=
  let cName := TrimPrefix (Join (Names cont) ";") "/" in
  let submatches := FindStringSubmatch (containerRe c) cName in
  if (length submatches =? 0)%nat then ret tt
  else
    let cName := nth (length submatches - 1) submatches "" in
    let isRunning := if (State cont =? "running")%string then F64.one else F64.zero in
    let isRestarting := if (State cont =? "restarting")%string then F64.one else F64.zero in
    let isExited := if (State cont =? "exited")%string then F64.one else F64.zero in
    send (MustNewConstMetric
            (NewDesc "dex_container_running"
                     "1 if docker container is running, 0 otherwise" labelCname)
            GaugeValue isRunning cName) ;;
    send (MustNewConstMetric
            (NewDesc "dex_container_restarting"
                     "1 if docker container is restarting, 0 otherwise" labelCname)
            GaugeValue isRestarting cName) ;;
    send (MustNewConstMetric
            (NewDesc "dex_container_exited"
                     "1 if docker container exited, 0 otherwise" labelCname)
            GaugeValue isExited cName) ;;
    record_call (CallContainerInspect (ID cont)) ;;
    match ContainerInspect (cli c) (ID cont) with
    | Err err => log_Fatal err
    | Ok inspect =>
        send (MustNewConstMetric
                (NewDesc "dex_container_restarts_total"
                         "Number of times the container has restarted" labelCname)
                CounterValue (F64.of_Z (RestartCount inspect)) cName)
    end ;;
    if F64.eqb isRunning F64.one then
      record_call (CallContainerStats (ID cont) false) ;;
      match ContainerStats (cli c) (ID cont) with
      | Err err => log_Fatal err
      | Ok stats =>
          let containerStats := decoded stats in
          log_if_error "can't read api stats: " (decodeErr stats) ;;
          log_if_error "can't close body: " (closeErr stats) ;;
          blockIoMetrics containerStats cName ;;
          memoryMetrics containerStats cName ;;
          networkMetrics containerStats cName ;;
          CPUMetrics containerStats cName ;;
          pidsMetrics containerStats cName
      end
    else ret tt.

(** [for _, container := range containers { go c.processContainer(...) }]
    followed by [wg.Wait()]. The source starts one goroutine per container
    and the units only share the channel; the embedding runs them one
    after the other, in the order of the listing, which is one of the
    schedules of the source. The statements about a whole cycle are
    therefore limited to what holds under every schedule: which metrics,
    log entries and calls occur and whether the process ends, never the
    order between units. *)
Fixpoint forEach (containers : list Summary) (unit_ : Summary -> Go unit) : Go unit :=
  match containers with
  | [] => ret tt
  | container :: rest => unit_ container ;; forEach rest unit_
  end.

Definition Collect (c : DockerCollector) : Go unit :=
  record_call (CallContainerList true) ;;
  match ContainerList (cli c) with
  | Err err => log_Error ("can't list containers: " ++ err)%string
  | Ok containers => forEach containers (processContainer c)
  end.

(** The events of one cycle or one unit run from a fresh process state. *)
Definition emitted {A} (m : Go A) : list Metric := ch (final (m start)).

Definition metric_name (m : Metric) : string := fqName (desc m).

(** ** Some compiled patterns

    Instances of [Regexp] for three shapes of the [DEX_FILTER_CONTAINER]
    pattern. In Go's syntax [.] does not match a line feed. *)

Definition is_LF (c : ascii) : bool := (byte_val c =? 10).

Fixpoint line_prefix (s : string) : string :=
  match s with
  | EmptyString => EmptyString
  | String c s' => if is_LF c then EmptyString else String c (line_prefix s')
  end.

Definition drop_prefix (pre s : string) : string :=
  String.substring (String.length pre) (String.length s - String.length pre)%nat s.

(** The default pattern: any run of characters. *)
Program Definition re_any : Regexp := {|
  NumSubexp := 0;
  FindStringSubmatch := fun s => [line_prefix s]
|}.
Next Obligation. intros s. right. reflexivity. Qed.

(** The literal [lit], free of meta-characters, anchored at the start of
    the text. *)
Program Definition re_prefix (lit : string) : Regexp := {|
  NumSubexp := 0;
  FindStringSubmatch := fun s => if String.prefix lit s then [lit] else []
|}.
Next Obligation. intros lit s. simpl. destruct (String.prefix lit s); auto. Qed.

(** The literal [lit] anchored at the start of the text, followed by one
    capture group holding the rest of the line. *)
Program Definition re_prefix_rest (lit : string) : Regexp := {|
  NumSubexp := 1;
  FindStringSubmatch := fun s =>
    if String.prefix lit s
    then [(lit ++ line_prefix (drop_prefix lit s))%string;
          line_prefix (drop_prefix lit s)]
    else []
|}.
Next Obligation. intros lit s. simpl. destruct (String.prefix lit s); auto. Qed.

(** ** Vocabulary of the statements *)

(** What the exposition layer sees of a metric: name, kind, value, label
    values. *)
Definition view (m : Metric) : string * ValueType * float64 * list string :=
  (metric_name m, valueType m, value m, labelValues m).

(** [extend p q] is [p] followed by what [q] holds. *)
Definition extend (p q : Process) : Process :=
  {| ch := ch p ++ ch q; logged := logged p ++ logged q; calls := calls p ++ calls q |}.

Definition extend_step {A} (p : Process) (s : Step A) : Step A :=
  match s with
  | Next a q => Next a (extend p q)
  | Exit c q => Exit c (extend p q)
  end.

(** A computation only appends to the channel, the log and the call
    trace, and does not read them. *)
Definition appending {A} (m : Go A) : Prop :=
  forall p, m p = extend_step p (m start).

(** The float of a lifecycle gauge. *)
Definition flag (b : bool) : float64 := if b then F64.one else F64.zero.

(** The names of the four metrics every filtered container gets and of the
    ten resource metrics. *)
Definition lifecycle_names : list string :=
  ["dex_container_running"; "dex_container_restarting"; "dex_container_exited"].

Definition restarts_name : string := "dex_container_restarts_total".

Definition resource_names : list string :=
  ["dex_block_io_read_bytes_total"; "dex_block_io_write_bytes_total";
   "dex_memory_usage_bytes"; "dex_memory_total_bytes";
   "dex_memory_utilization_percent";
   "dex_network_rx_bytes_total"; "dex_network_tx_bytes_total";
   "dex_cpu_utilization_percent"; "dex_cpu_utilization_seconds_total";
   "dex_pids_current"].

Definition is_resource_metric (m : Metric) : bool :=
  existsb (String.eqb (metric_name m)) resource_names.

Definition is_cpu_metric (m : Metric) : bool :=
  String.prefix "dex_cpu_" (metric_name m).

(** The three lifecycle gauges of a container in state [state]. *)
Definition lifecycle_views (state cName : string)
    : list (string * ValueType * float64 * list string) :=
  [("dex_container_running", GaugeValue, flag (state =? "running")%string, [cName]);
   ("dex_container_restarting", GaugeValue, flag (state =? "restarting")%string, [cName]);
   ("dex_container_exited", GaugeValue, flag (state =? "exited")%string, [cName])].

Definition restarts_view (inspect : InspectResponse) (cName : string)
    : string * ValueType * float64 * list string :=
  (restarts_name, CounterValue, F64.of_Z (RestartCount inspect), [cName]).

(** The five derivations, in the order [processContainer] runs them. *)
Definition resourceMetrics (containerStats : StatsResponse) (cName : string) : Go unit :=
  blockIoMetrics containerStats cName ;;
  memoryMetrics containerStats cName ;;
  networkMetrics containerStats cName ;;
  CPUMetrics containerStats cName ;;
  pidsMetrics containerStats cName.

(** The normalised name of a container record. *)
Definition normalized (cont : Summary) : string :=
  TrimPrefix (Join (Names cont) ";") "/".

(** Name resolution in the words of the specification (section 4.1): strip
    one leading path separator from the joined names, apply the pattern;
    with one or more capture groups the label is the last captured group,
    otherwise the whole match; no match, no label. *)
Definition strip_one_separator (s : string) : string :=
  match s with
  | String c s' => if (byte_val c =? 47) then s' else s
  | EmptyString => s
  end.

Definition resolve (re : Regexp) (rawNames : list string) : option string :=
  match FindStringSubmatch re (strip_one_separator (Join rawNames ";")) with
  | [] => None
  | whole :: groups =>
      Some (match NumSubexp re with
            | O => whole
            | S _ => List.last groups ""
            end)
  end.

(** ASCII lower-casing, for stating what a case-insensitive match is. *)
Definition lower (c : ascii) : ascii :=
  let n := byte_val c in
  if (65 <=? n) && (n <=? 90) then ascii_of_N (Z.to_N (n + 32)) else c.

Fixpoint lower_string (s : string) : string :=
  match s with
  | EmptyString => EmptyString
  | String c s' => String (lower c) (lower_string s')
  end.

Definition is_lower_letter (c : ascii) : bool :=
  (97 <=? byte_val c) && (byte_val c <=? 122).

Definition all_ascii : list ascii := map ascii_of_nat (seq 0 256).

Definition fold_eq_agrees (a b : ascii) : bool :=
  implb (is_lower_letter b) (Bool.eqb (fold_eq a b) (Ascii.eqb (lower a) b)).

Fixpoint lower_letters (s : string) : bool :=
  match s with
  | EmptyString => true
  | String c s' => is_lower_letter c && lower_letters s'
  end.

(** The mathematical sum of the values of the records whose operation
    matches [op] without regard to case. *)
Fixpoint op_sum (op : string) (records : list BlkioStatEntry) : Z :=
  match records with
  | [] => 0
  | b :: rest =>
      (if (lower_string (Op b) =? op)%string then Value b else 0) + op_sum op rest
  end.

(** The values of the two CPU metrics and of the memory utilisation. *)
Definition cpuDelta (s : StatsResponse) : Z :=
  U64.sub (TotalUsage (CPUUsage_ (CPUStats_ s)))
          (TotalUsage (CPUUsage_ (PreCPUStats s))).

Definition systemDelta (s : StatsResponse) : Z :=
  U64.sub (SystemUsage (CPUStats_ s)) (SystemUsage (PreCPUStats s)).

Definition memoryUsage (s : StatsResponse) : Z :=
  U64.sub (Usage (MemoryStats_ s)) (index (Stats (MemoryStats_ s)) "cache" 0).

(** The value carried by the metric called [name] among [ms], if any. *)
Definition value_of (name : string) (ms : list Metric) : option float64 :=
  match List.filter (fun m => String.eqb (metric_name m) name) ms with
  | m :: _ => Some (value m)
  | [] => None
  end.

(** A computation that sends the metrics [l] and does nothing else. *)
Definition emits (m : Go unit) (l : list Metric) : Prop :=
  forall p, m p = Next tt {| ch := ch p ++ l; logged := logged p; calls := calls p |}.

(** What [log_if_error] writes. *)
Definition error_entry (pre : string) (e : option error) : list Entry :=
  match e with
  | Some err => [{| level := ErrorLevel; message := (pre ++ err)%string |}]
  | None => []
  end.

(** ** Concrete inputs

    The container and the snapshot of scenario A of the specification, and
    runtimes that fail in one place each. *)

Definition web1 : Summary :=
  {| ID := "4f1c2a9e"; Names := ["/web-1"]; State := "running" |}.

Definition web1_exited : Summary :=
  {| ID := "4f1c2a9e"; Names := ["/web-1"]; State := "exited" |}.

Definition snapshotA : StatsResponse := {|
  CPUStats_ := {| CPUUsage_ := {| TotalUsage := 500000000 |};
                  SystemUsage := 10000000000 |};
  PreCPUStats := {| CPUUsage_ := {| TotalUsage := 400000000 |};
                    SystemUsage := 9000000000 |};
  MemoryStats_ := {| Usage := 125829120; Limit := 209715200;
                     Stats := {[ "cache" := 20971520 ]} |};
  Networks := {[ "eth0" := {| RxBytes := 1000; TxBytes := 2000 |} ]};
  BlkioStats_ := {| IoServiceBytesRecursive :=
                      [{| Op := "read"; Value := 100 |};
                       {| Op := "write"; Value := 50 |};
                       {| Op := "read"; Value := 25 |}] |};
  PidsStats_ := {| Current := 7 |}
|}.


Definition bodyA : StatsBody :=
  {| decoded := snapshotA; decodeErr := None; closeErr := None |}.

(** A body that is not JSON: [Decode] fails and leaves the zero value. *)
Definition body_malformed : StatsBody :=
  {| decoded := zeroStatsResponse;
     decodeErr := Some "invalid character '<' looking for beginning of value";
     closeErr := None |}.

Definition runtimeA : Client := {|
  ContainerList := Ok [web1];
  ContainerInspect := fun _ => Ok {| RestartCount := 2 |};
  ContainerStats := fun _ => Ok bodyA
|}.

Definition runtime_exited : Client := {|
  ContainerList := Ok [web1_exited];
  ContainerInspect := fun _ => Ok {| RestartCount := 2 |};
  ContainerStats := fun _ => Err "container is not running"
|}.

Definition runtime_inspect_fails : Client := {|
  ContainerList := Ok [web1];
  ContainerInspect := fun _ => Err "No such container: 4f1c2a9e";
  ContainerStats := fun _ => Ok bodyA
|}.

Definition runtime_malformed_stats : Client := {|
  ContainerList := Ok [web1];
  ContainerInspect := fun _ => Ok {| RestartCount := 2 |};
  ContainerStats := fun _ => Ok body_malformed
|}.

Definition runtime_down : Client := {|
  ContainerList := Err "Cannot connect to the Docker daemon";
  ContainerInspect := fun _ => Err "Cannot connect to the Docker daemon";
  ContainerStats := fun _ => Err "Cannot connect to the Docker daemon"
|}.

Definition dex (runtime : Client) : DockerCollector :=
  {| cli := runtime; containerRe := re_any |}.

(** ** Statements that the code does not satisfy

    They are stated here in full so that they can be refuted on a concrete
    input. *)

(** A failing inspect call is absorbed by the unit: logged, restart count
    omitted, lifecycle gauges emitted, process alive. *)
Definition inspect_failure_recoverable (c : DockerCollector) (cont : Summary) : Prop :=
  forall e label,
    resolve (containerRe c) (Names cont) = Some label ->
    ContainerInspect (cli c) (ID cont) = Err e ->
    let r := processContainer c cont start in
    exited r = false /\
    logged (final r) <> [] /\
    ~ In restarts_name (map metric_name (ch (final r))) /\
    firstn 3 (map view (ch (final r))) = lifecycle_views (State cont) label.

(** A zero denominator yields the percentage 0. *)
Definition zero_denominator_yields_zero (s : StatsResponse) (cName : string) : Prop :=
  (systemDelta s = 0 ->
   exists v, value_of "dex_cpu_utilization_percent" (emitted (CPUMetrics s cName)) = Some v /\
             F64.is_zero v = true) /\
  (Limit (MemoryStats_ s) = 0 ->
   exists v, value_of "dex_memory_utilization_percent" (emitted (memoryMetrics s cName)) = Some v /\
             F64.is_zero v = true).

(** ** Start-up

    [newDockerCollector] reads the process environment and calls two
    library constructors; [Startup] holds what they answer. *)

Record Startup := {
  NewClientWithOpts : result Client;
  environ : gmap string string;
  Compile : string -> result Regexp
}.

(** [os.LookupEnv(key)] *)
Definition LookupEnv (env : gmap string string) (key : string) : string * bool :=
  match env !! key with
  | Some v => (v, true)
  | None => ("", false)
  end.

Definition newDockerCollector (os : Startup) : Go DockerCollector :=
  cli <- match NewClientWithOpts os with
         | Err err => log_Fatal ("can't create docker client: " ++ err)%string
         | Ok cli => ret cli
         end ;;
  let '(container_name_regex, found) :=
    LookupEnv (environ os) "DEX_FILTER_CONTAINER" in
  let container_name_regex :=
    if negb found then ".*" else container_name_regex in
  re <- match Compile os container_name_regex with
        | Err err =>
            log_Fatal ("invalid container filter regexp '" ++ container_name_regex
                       ++ "': " ++ err)%string
        | Ok re => ret re
        end ;;
  ret {| cli := cli; containerRe := re |}.

(** ** Further vocabulary *)

(** The description and the kind of a metric: what must agree between two
    metrics of the same name. *)
Definition signature (m : Metric) : Desc * ValueType := (desc m, valueType m).

(** The fourteen signatures of the collector, as a run that reaches every
    [send] produces them. *)
Definition catalog : list (Desc * ValueType) :=
  Eval vm_compute in map signature (emitted (Collect (dex runtimeA))).

(** [x] is the number [z], exactly. *)
Definition represents (x : float64) (z : Z) : Prop :=
  match x with
  | S754_zero _ => z = 0
  | S754_finite false m e => e <= 0 /\ Z.pos m = z * 2 ^ (- e)
  | _ => False
  end.

(** Every [uint64] field that the derivations read is in range. *)
Definition snapshot_in_range (s : StatsResponse) : Prop :=
  cpu_in_range (CPUStats_ s) /\ cpu_in_range (PreCPUStats s) /\
  mem_in_range (MemoryStats_ s) /\
  (forall k n, Networks s !! k = Some n ->
               U64.in_range (RxBytes n) /\ U64.in_range (TxBytes n)) /\
  U64.in_range (Current (PidsStats_ s)).

(** The container passes the name filter. *)
Definition filtered (c : DockerCollector) (cont : Summary) : bool :=
  negb (length (FindStringSubmatch (containerRe c) (normalized cont)) =? 0)%nat.

(** The calls one unit may make. *)
Definition is_unit_call (cont : Summary) (k : Call) : Prop :=
  k = CallContainerInspect (ID cont) \/ k = CallContainerStats (ID cont) false.

(** ** Further concrete inputs *)

Definition runtime_stats_fails : Client := {|
  ContainerList := Ok [web1];
  ContainerInspect := fun _ => Ok {| RestartCount := 2 |};
  ContainerStats := fun _ => Err "context deadline exceeded"
|}.

Definition body_unclosable : StatsBody :=
  {| decoded := snapshotA; decodeErr := None;
     closeErr := Some "use of closed network connection" |}.

Definition runtime_unclosable : Client := {|
  ContainerList := Ok [web1];
  ContainerInspect := fun _ => Ok {| RestartCount := 2 |};
  ContainerStats := fun _ => Ok body_unclosable
|}.

(** A compiler that knows the default pattern and the empty one, and
    rejects an unbalanced parenthesis. *)
Definition compile_some (pattern : string) : result Regexp :=
  if (pattern =? ".*")%string then Ok re_any
  else if (pattern =? "")%string then Ok (re_prefix "")
  else Err "error parsing regexp: missing closing ): `(`".

Definition os_default : Startup :=
  {| NewClientWithOpts := Ok runtimeA; environ := ∅; Compile := compile_some |}.

Definition os_empty_filter : Startup :=
  {| NewClientWithOpts := Ok runtimeA;
     environ := {[ "DEX_FILTER_CONTAINER" := "" ]};
     Compile := compile_some |}.

Definition os_bad_filter : Startup :=
  {| NewClientWithOpts := Ok runtimeA;
     environ := {[ "DEX_FILTER_CONTAINER" := "(" ]};
     Compile := compile_some |}.

(** ** Inputs and statements for the name filter and the running gate *)

(** A container with two names, as the runtime lists a linked container. *)
Definition web1_aliased : Summary :=
  {| ID := "4f1c2a9e"; Names := ["/web-1"; "/proxy/web"]; State := "exited" |}.

(** A snapshot in which only the CPU total went backwards. *)
Definition snapshot_cpu_backwards : StatsResponse := {|
  CPUStats_ := {| CPUUsage_ := {| TotalUsage := 400000000 |};
                  SystemUsage := 10000000000 |};
  PreCPUStats := {| CPUUsage_ := {| TotalUsage := 500000000 |};
                    SystemUsage := 9000000000 |};
  MemoryStats_ := {| Usage := 4096; Limit := 209715200; Stats := ∅ |};
  Networks := ∅;
  BlkioStats_ := {| IoServiceBytesRecursive := [] |};
  PidsStats_ := {| Current := 1 |}
|}.

(** The running gate for every filtered container, whatever its inspect
    call answers: the stats call is made exactly for a running container,
    and a container in another state yields the three lifecycle gauges and
    the restart counter. *)
Definition running_gate (c : DockerCollector) (cont : Summary) : Prop :=
  forall label,
    resolve (containerRe c) (Names cont) = Some label ->
    let r := processContainer c cont start in
    (In (CallContainerStats (ID cont) false) (calls (final r)) <->
     State cont = "running") /\
    (State cont <> "running" ->
     map metric_name (ch (final r)) = (lifecycle_names ++ [restarts_name])%list /\
     List.filter is_resource_metric (ch (final r)) = []).

(** * Properties

    ** Rounding to binary64

    An integer in [(0, 2^64)] converts to a strictly positive finite
    number: the rounding of [SpecFloat] neither underflows to zero nor
    overflows to an infinity on that range. *)

Lemma digits2_pos_bounds (m : positive) :
  2 ^ (Z.pos (digits2_pos m) - 1) <= Z.pos m < 2 ^ Z.pos (digits2_pos m).
Proof.
  induction m as [m IH | m IH | ]; cbn [digits2_pos].
  - rewrite Pos2Z.inj_succ, Z.pow_succ_r by lia.
    replace (Z.succ (Z.pos (digits2_pos m)) - 1)
      with (Z.succ (Z.pos (digits2_pos m) - 1)) by lia.
    rewrite Z.pow_succ_r by lia. lia.
  - rewrite Pos2Z.inj_succ, Z.pow_succ_r by lia.
    replace (Z.succ (Z.pos (digits2_pos m)) - 1)
      with (Z.succ (Z.pos (digits2_pos m) - 1)) by lia.
    rewrite Z.pow_succ_r by lia. lia.
  - simpl. lia.
Qed.


Lemma iter_pos_peano {A} (f : A -> A) (n : positive) (x : A) :
  SpecFloat.iter_pos f n x = Pos.iter f x n.
Proof.
  revert x. induction n as [n IH | n IH | ]; intros x; cbn [SpecFloat.iter_pos Pos.iter].
  - rewrite !IH, 2!Pos.iter_swap. reflexivity.
  - rewrite !IH. reflexivity.
  - reflexivity.
Qed.

Lemma shr_1_m (mrs : shr_record) :
  0 <= shr_m mrs -> shr_m (shr_1 mrs) = shr_m mrs / 2.
Proof.
  destruct mrs as [m r s]. cbn [shr_m]. intros Hm.
  destruct m as [ | [p | p | ] | p ]; cbn [shr_1 shr_m].
  - reflexivity.
  - apply (Z.div_unique _ _ _ 1); lia.
  - apply (Z.div_unique _ _ _ 0); lia.
  - reflexivity.
  - lia.
Qed.

Lemma shr_iter_m (n : positive) (mrs : shr_record) :
  0 <= shr_m mrs ->
  shr_m (SpecFloat.iter_pos shr_1 n mrs) = shr_m mrs / 2 ^ Z.pos n.
Proof.
  intros Hm. rewrite iter_pos_peano.
  induction n as [ | n IH ] using Pos.peano_ind.
  - cbn [Pos.iter]. rewrite shr_1_m by assumption. reflexivity.
  - rewrite Pos.iter_succ, shr_1_m.
    + rewrite IH, Pos2Z.inj_succ, Z.pow_succ_r by lia.
      rewrite Z.div_div by lia. f_equal. lia.
    + rewrite IH. apply Z.div_pos; lia.
Qed.

Lemma round_nearest_even_bounds (m : Z) (l : location) :
  m <= round_nearest_even m l <= m + 1.
Proof.
  destruct l as [ | [ | | ] ]; cbn [round_nearest_even];
    try destruct (Z.even m); lia.
Qed.

Lemma iter_xO_value (m k : positive) :
  Z.pos (Pos.iter xO m k) = Z.pos m * 2 ^ Z.pos k.
Proof.
  induction k as [ | k IH ] using Pos.peano_ind.
  - cbn [Pos.iter]. lia.
  - rewrite Pos.iter_succ, Pos2Z.inj_xO, IH, Pos2Z.inj_succ, Z.pow_succ_r by lia.
    lia.
Qed.

Lemma shr_spec (mrs : shr_record) (e n : Z) :
  0 <= shr_m mrs ->
  shr_m (fst (shr mrs e n)) = shr_m mrs / 2 ^ Z.max n 0 /\
  snd (shr mrs e n) = e + Z.max n 0.
Proof.
  intros Hm. destruct n as [ | p | p ]; cbn [shr fst snd].
  - rewrite Z.max_id. cbn. rewrite Z.div_1_r. lia.
  - rewrite Z.max_l by lia. split; [ apply shr_iter_m; assumption | reflexivity ].
  - rewrite Z.max_r by lia. cbn. rewrite Z.div_1_r. lia.
Qed.

Lemma shr_record_of_loc_m (m : Z) (l : location) :
  shr_m (shr_record_of_loc m l) = m.
Proof. destruct l as [ | [ | | ] ]; reflexivity. Qed.

Lemma shr_fexp_spec (m e : Z) (l : location) :
  0 < m -> -1074 <= e ->
  let k := Z.max (Zdigits2 m - 53) 0 in
  shr_m (fst (shr_fexp 53 1024 m e l)) = m / 2 ^ k /\
  snd (shr_fexp 53 1024 m e l) = e + k.
Proof.
  intros Hm He k. unfold shr_fexp.
  pose proof (shr_spec (shr_record_of_loc m l) e
                (fexp 53 1024 (Zdigits2 m + e) - e)) as Hs.
  rewrite shr_record_of_loc_m in Hs. specialize (Hs ltac:(lia)).
  replace (Z.max (fexp 53 1024 (Zdigits2 m + e) - e) 0) with k in Hs.
  - exact Hs.
  - unfold k, fexp, emin. lia.
Qed.

Lemma Zdigits2_bounds (m : Z) :
  0 < m -> 2 ^ (Zdigits2 m - 1) <= m < 2 ^ Zdigits2 m /\ 0 < Zdigits2 m.
Proof.
  intros Hm. destruct m as [ | p | p ]; try lia. cbn [Zdigits2].
  split; [ apply digits2_pos_bounds | lia ].
Qed.

Lemma Zdigits2_le (m k : Z) : 0 < m -> m < 2 ^ k -> 0 <= k -> Zdigits2 m <= k.
Proof.
  intros Hm Hk Hk0. destruct (Zdigits2_bounds m Hm) as [[Hlo _] Hd].
  assert (Zdigits2 m - 1 < k); [ | lia ].
  apply (Z.pow_lt_mono_r_iff 2); lia.
Qed.

Lemma shifted_mantissa_bounds (m : Z) :
  0 < m ->
  let k := Z.max (Zdigits2 m - 53) 0 in
  1 <= m / 2 ^ k < 2 ^ 53 /\ (53 <= Zdigits2 m -> 2 ^ 52 <= m / 2 ^ k).
Proof.
  intros Hm k. destruct (Zdigits2_bounds m Hm) as [[Hlo Hhi] Hd].
  assert (Hk : 0 <= k) by (unfold k; lia).
  assert (Hp : 0 < 2 ^ k) by (apply Z.pow_pos_nonneg; lia).
  destruct (Z_le_gt_dec 53 (Zdigits2 m)) as [Hge | Hlt].
  - assert (Ek : Zdigits2 m = 53 + k) by (unfold k; lia).
    assert (E1 : 2 ^ (Zdigits2 m - 1) = 2 ^ 52 * 2 ^ k).
    { rewrite <- Z.pow_add_r by lia. f_equal. lia. }
    assert (E2 : 2 ^ Zdigits2 m = 2 ^ 53 * 2 ^ k).
    { rewrite <- Z.pow_add_r by lia. f_equal. lia. }
    assert (2 ^ 52 <= m / 2 ^ k).
    { apply Z.div_le_lower_bound; lia. }
    assert (m / 2 ^ k < 2 ^ 53).
    { apply Z.div_lt_upper_bound; lia. }
    lia.
  - assert (Ek : k = 0) by (unfold k; lia).
    rewrite Ek. rewrite Z.pow_0_r, Z.div_1_r.
    assert (2 ^ Zdigits2 m <= 2 ^ 52) by (apply Z.pow_le_mono_r; lia).
    lia.
Qed.

Lemma binary_round_aux_finite (sx : bool) (mx ex : Z) (lx : location) :
  0 < mx -> -1074 <= ex ->
  ex + Z.max (Zdigits2 mx - 53) 0 + 1 <= 971 ->
  exists m e, binary_round_aux 53 1024 sx mx ex lx = S754_finite sx m e.
Proof.
  intros Hm He Hex. unfold binary_round_aux.
  destruct (shr_fexp_spec mx ex lx Hm He) as [M1 E1].
  destruct (shifted_mantissa_bounds mx Hm) as [[B1 B1'] _].
  destruct (shr_fexp 53 1024 mx ex lx) as [mrs' e'].
  cbn [fst snd] in M1, E1.
  pose proof (round_nearest_even_bounds (shr_m mrs') (loc_of_shr_record mrs')) as R.
  set (r := round_nearest_even (shr_m mrs') (loc_of_shr_record mrs')) in *.
  assert (Hr : 0 < r) by lia.
  assert (Dr : Zdigits2 r <= 54).
  { apply Zdigits2_le; lia. }
  destruct (shr_fexp_spec r e' loc_Exact Hr ltac:(lia)) as [M2 E2].
  destruct (shifted_mantissa_bounds r Hr) as [[B2 _] _].
  destruct (shr_fexp 53 1024 r e' loc_Exact) as [mrs'' e''].
  cbn [fst snd] in M2, E2.
  destruct (shr_m mrs'') as [ | m | m ] eqn:Em; try lia.
  assert (Hle : (e'' <=? 1024 - 53) = true).
  { apply Z.leb_le. destruct (Zdigits2_bounds r Hr) as [_ Dr0]. lia. }
  rewrite Hle. eauto.
Qed.

Lemma of_Z_pos_finite (z : Z) :
  0 < z < 2 ^ 64 -> exists m e, F64.of_Z z = S754_finite false m e.
Proof.
  intros [Hz Hhi]. destruct z as [ | p | p ]; try lia.
  unfold F64.of_Z, F64.prec, F64.emax. cbn [binary_normalize]. unfold binary_round.
  destruct (Zdigits2_bounds (Z.pos p) Hz) as [[Dlo Dhi] Dpos].
  pose proof (Zdigits2_le (Z.pos p) 64 Hz Hhi ltac:(lia)) as D64.
  cbn [Zdigits2] in *.
  set (d := Z.pos (digits2_pos p)) in *.
  assert (Ef : fexp 53 1024 (d + 0) = d - 53) by (unfold fexp, emin; lia).
  rewrite Ef. unfold shl_align.
  destruct (d - 53 - 0) as [ | k | k ] eqn:Ek.
  - apply binary_round_aux_finite; cbn [Zdigits2]; fold d; lia.
  - apply binary_round_aux_finite; cbn [Zdigits2]; fold d; lia.
  - assert (Hv := iter_xO_value p k).
    assert (Hlt : Z.pos (Pos.iter xO p k) < 2 ^ 53).
    { rewrite Hv. replace 53 with (d + Z.pos k) by lia.
      rewrite Z.pow_add_r by lia.
      apply Z.mul_lt_mono_pos_r; [ apply Z.pow_pos_nonneg; lia | exact Dhi ]. }
    pose proof (Zdigits2_le _ 53 (Pos2Z.is_pos _) Hlt ltac:(lia)).
    apply binary_round_aux_finite; lia.
Qed.






Lemma mul_comm (x y : float64) : F64.mul x y = F64.mul y x.
Proof.
  destruct x as [sx | sx | | sx mx ex], y as [sy | sy | | sy my ey];
    cbn [F64.mul SFmul]; try reflexivity;
    try (rewrite (xorb_comm sx sy); reflexivity).
  unfold F64.mul, SFmul.
  rewrite (xorb_comm sx sy), (Pos.mul_comm mx my), (Z.add_comm ex ey).
  reflexivity.
Qed.

(** ** The process monad only appends *)

Lemma extend_start_r (p : Process) : extend p start = p.
Proof. destruct p. unfold extend. cbn. rewrite !app_nil_r. reflexivity. Qed.


Lemma extend_assoc (p q r : Process) :
  extend (extend p q) r = extend p (extend q r).
Proof. unfold extend. cbn. rewrite !app_assoc. reflexivity. Qed.

Lemma appending_ret {A} (a : A) : appending (ret a).
Proof. intros p. cbn. rewrite extend_start_r. reflexivity. Qed.

Lemma appending_bind {A B} (m : Go A) (k : A -> Go B) :
  appending m -> (forall a, appending (k a)) -> appending (bind m k).
Proof.
  intros Hm Hk p. unfold bind. rewrite (Hm p).
  destruct (m start) as [a q | code q]; cbn [extend_step].
  - rewrite (Hk a (extend p q)), (Hk a q).
    destruct (k a start) as [b r | code r]; cbn [extend_step];
      rewrite extend_assoc; reflexivity.
  - reflexivity.
Qed.

Lemma appending_send (m : Metric) : appending (send m).
Proof. intros p. unfold send, extend_step, extend. cbn. rewrite !app_nil_r. reflexivity. Qed.

Lemma appending_log_entry (l : Level) (msg : string) : appending (log_entry l msg).
Proof. intros p. unfold log_entry, extend_step, extend. cbn. rewrite !app_nil_r. reflexivity. Qed.

Lemma appending_log_Fatal {A} (msg : string) : appending (@log_Fatal A msg).
Proof. intros p. unfold log_Fatal, log_entry, extend_step, extend. cbn. rewrite !app_nil_r. reflexivity. Qed.

Lemma appending_record_call (c : Call) : appending (record_call c).
Proof. intros p. unfold record_call, extend_step, extend. cbn. rewrite !app_nil_r. reflexivity. Qed.

Create HintDb go_appending.
#[local] Hint Resolve appending_ret appending_send appending_log_entry
  appending_log_Fatal appending_record_call : go_appending.

Ltac appending_step :=
  match goal with
  | |- appending (bind _ _) => apply appending_bind; [ | intros ? ]
  | |- appending (match ?x with _ => _ end) => destruct x
  | |- appending (let '(_, _) := ?x in _) => destruct x
  | |- appending (if ?b then _ else _) => destruct b
  | |- appending _ => solve [ auto with go_appending ]
  end.

Lemma appending_log_if_error (pre : string) (e : option error) :
  appending (log_if_error pre e).
Proof. unfold log_if_error, log_Error. repeat appending_step. Qed.

Lemma appending_CPUMetrics s cName : appending (CPUMetrics s cName).
Proof. unfold CPUMetrics. repeat appending_step. Qed.

Lemma appending_memoryMetrics s cName : appending (memoryMetrics s cName).
Proof. unfold memoryMetrics. repeat appending_step. Qed.

Lemma appending_networkMetrics s cName : appending (networkMetrics s cName).
Proof. unfold networkMetrics. repeat appending_step. Qed.

Lemma appending_blockIoMetrics s cName : appending (blockIoMetrics s cName).
Proof. unfold blockIoMetrics. repeat appending_step. Qed.

Lemma appending_pidsMetrics s cName : appending (pidsMetrics s cName).
Proof. unfold pidsMetrics. repeat appending_step. Qed.

#[local] Hint Resolve appending_log_if_error appending_CPUMetrics
  appending_memoryMetrics appending_networkMetrics appending_blockIoMetrics
  appending_pidsMetrics : go_appending.

Lemma appending_processContainer c cont : appending (processContainer c cont).
Proof. unfold processContainer. repeat appending_step. Qed.

Lemma appending_forEach containers (f : Summary -> Go unit) :
  (forall x, appending (f x)) -> appending (forEach containers f).
Proof.
  intros Hf. induction containers as [ | x rest IH ]; cbn [forEach].
  - apply appending_ret.
  - apply appending_bind; auto.
Qed.

Lemma appending_Collect c : appending (Collect c).
Proof.
  unfold Collect, log_Error. repeat appending_step.
  apply appending_forEach. intros x. apply appending_processContainer.
Qed.

(** ** The paths through [processContainer] *)

Lemma nth_length_pred {A} (l : list A) (d : A) :
  nth (length l - 1) l d = List.last l d.
Proof.
  induction l as [ | x l IH ]; [ reflexivity | ].
  destruct l as [ | y l ]; [ reflexivity | ].
  change (List.last (x :: y :: l) d) with (List.last (y :: l) d).
  rewrite <- IH. cbn [length].
  replace (S (S (length l)) - 1)%nat with (S (S (length l) - 1)) by lia.
  reflexivity.
Qed.


Lemma resourceMetrics_emits (s : StatsResponse) (cName : string) :
  emits (resourceMetrics s cName) (emitted (resourceMetrics s cName)).
Proof.
  intros p. unfold emitted, resourceMetrics, blockIoMetrics, memoryMetrics,
    networkMetrics, CPUMetrics, pidsMetrics.
  destruct (blockIoTotals _) as [readTotal writeTotal].
  unfold bind, send. cbn [ch logged calls final start app].
  repeat rewrite <- app_assoc. reflexivity.
Qed.

Section Paths.

Variables (c : DockerCollector) (cont : Summary).
Variables (whole : string) (groups : list string).
Hypothesis matches :
  FindStringSubmatch (containerRe c) (normalized cont) = whole :: groups.

Let label : string := List.last (whole :: groups) "".

Ltac enter :=
  unfold processContainer; fold (normalized cont); rewrite matches;
  rewrite nth_length_pred; fold label;
  change (length (whole :: groups) =? 0)%nat with false; cbv iota.

Lemma unit_inspect_error (e : error) :
  ContainerInspect (cli c) (ID cont) = Err e ->
  exists q,
    processContainer c cont start = Exit 1 q /\
    map view (ch q) = lifecycle_views (State cont) label /\
    logged q = [{| level := FatalLevel; message := e |}] /\
    calls q = [CallContainerInspect (ID cont)].
Proof.
  intros Hi. enter. rewrite Hi.
  eexists. split; [ reflexivity | ]. repeat split.
Qed.

Lemma unit_not_running (inspect : InspectResponse) :
  ContainerInspect (cli c) (ID cont) = Ok inspect ->
  (State cont =? "running")%string = false ->
  exists q,
    processContainer c cont start = Next tt q /\
    map view (ch q) =
      (lifecycle_views (State cont) label ++ [restarts_view inspect label])%list /\
    logged q = [] /\
    calls q = [CallContainerInspect (ID cont)].
Proof.
  intros Hi Hs. enter. rewrite Hi, Hs.
  eexists. split; [ reflexivity | ].
  unfold lifecycle_views. rewrite Hs. repeat split.
Qed.

Lemma unit_stats_error (inspect : InspectResponse) (e : error) :
  ContainerInspect (cli c) (ID cont) = Ok inspect ->
  (State cont =? "running")%string = true ->
  ContainerStats (cli c) (ID cont) = Err e ->
  exists q,
    processContainer c cont start = Exit 1 q /\
    map view (ch q) =
      (lifecycle_views (State cont) label ++ [restarts_view inspect label])%list /\
    logged q = [{| level := FatalLevel; message := e |}] /\
    calls q = [CallContainerInspect (ID cont); CallContainerStats (ID cont) false].
Proof.
  intros Hi Hs He. enter. rewrite Hi, Hs, He.
  eexists. split; [ reflexivity | ].
  unfold lifecycle_views. rewrite Hs. repeat split.
Qed.

Lemma unit_running (inspect : InspectResponse) (body : StatsBody) :
  ContainerInspect (cli c) (ID cont) = Ok inspect ->
  (State cont =? "running")%string = true ->
  ContainerStats (cli c) (ID cont) = Ok body ->
  exists q,
    processContainer c cont start = Next tt q /\
    map view (ch q) =
      (lifecycle_views (State cont) label ++ [restarts_view inspect label] ++
       map view (emitted (resourceMetrics (decoded body) label)))%list /\
    logged q =
      (error_entry "can't read api stats: " (decodeErr body) ++
       error_entry "can't close body: " (closeErr body))%list /\
    calls q = [CallContainerInspect (ID cont); CallContainerStats (ID cont) false].
Proof.
  intros Hi Hs Hb. enter. rewrite Hi, Hs, Hb.
  change (blockIoMetrics (decoded body) label ;; _)
    with (resourceMetrics (decoded body) label).
  pose proof (resourceMetrics_emits (decoded body) label) as Hr.
  unfold lifecycle_views. rewrite Hs.
  change (F64.eqb F64.one F64.one) with true. cbv iota.
  destruct (decodeErr body) as [ e1 | ], (closeErr body) as [ e2 | ];
    unfold bind, send, record_call, log_if_error, log_Error, log_entry, ret;
    cbn [ch logged calls start app]; rewrite Hr;
    (eexists; split; [ reflexivity | ]);
    cbn [ch logged calls map view app error_entry]; try rewrite map_app;
    repeat split.
Qed.

End Paths.

(** ** Signs of quotients and products *)

Lemma shr_m_nonneg (mrs : shr_record) (e n : Z) :
  0 <= shr_m mrs -> 0 <= shr_m (fst (shr mrs e n)).
Proof.
  intros Hm. destruct (shr_spec mrs e n Hm) as [E _]. rewrite E.
  apply Z.div_pos; [ assumption | apply Z.pow_pos_nonneg; lia ].
Qed.

Lemma binary_round_aux_sign (sx : bool) (mx ex : Z) (lx : location) :
  0 <= mx -> F64.has_sign sx (binary_round_aux 53 1024 sx mx ex lx) = true.
Proof.
  intros Hm. unfold binary_round_aux, shr_fexp.
  pose proof (shr_m_nonneg (shr_record_of_loc mx lx) ex
                (fexp 53 1024 (Zdigits2 mx + ex) - ex)) as H1.
  rewrite shr_record_of_loc_m in H1. specialize (H1 Hm).
  destruct (shr (shr_record_of_loc mx lx) ex _) as [mrs' e'].
  cbn [fst] in H1.
  pose proof (round_nearest_even_bounds (shr_m mrs') (loc_of_shr_record mrs')) as R.
  set (r := round_nearest_even (shr_m mrs') (loc_of_shr_record mrs')) in *.
  pose proof (shr_m_nonneg (shr_record_of_loc r loc_Exact) e'
                (fexp 53 1024 (Zdigits2 r + e') - e')) as H2.
  rewrite shr_record_of_loc_m in H2. specialize (H2 ltac:(lia)).
  destruct (shr (shr_record_of_loc r loc_Exact) e' _) as [mrs'' e''].
  cbn [fst] in H2.
  destruct (shr_m mrs'') as [ | m | m ]; try lia.
  - cbn. apply eqb_reflx.
  - destruct (e'' <=? 1024 - 53); cbn; apply eqb_reflx.
Qed.

Lemma of_Z_cases (z : Z) :
  0 <= z < 2 ^ 64 ->
  (z = 0 /\ F64.of_Z z = F64.zero) \/
  (0 < z /\ exists m e, F64.of_Z z = S754_finite false m e).
Proof.
  intros Hz. destruct (Z.eq_dec z 0) as [-> | Hne].
  - left. split; reflexivity.
  - right. split; [ lia | apply of_Z_pos_finite; lia ].
Qed.

Lemma div_finite_sign (mx my : positive) (ex ey : Z) :
  F64.has_sign false
    (F64.div (S754_finite false mx ex) (S754_finite false my ey)) = true.
Proof.
  unfold F64.div, SFdiv, SFdiv_core_binary.
  set (s := _ - _ - Z.min _ _).
  set (m' := match s with Z0 => Z.pos mx | Z.pos _ => Z.shiftl (Z.pos mx) s | Z.neg _ => 0 end).
  assert (Hm' : 0 <= m').
  { unfold m'. destruct s; try lia. apply Z.shiftl_nonneg. lia. }
  pose proof (Z.div_pos m' (Z.pos my) Hm' ltac:(lia)) as Hq.
  unfold Z.div in Hq.
  destruct (Z.div_eucl m' (Z.pos my)) as [q r].
  apply (binary_round_aux_sign false). exact Hq.
Qed.

Lemma mul_c100_sign (x : float64) :
  F64.has_sign false x = true -> F64.is_zero x = false ->
  F64.has_sign false (F64.mul x F64.c100) = true.
Proof.
  destruct x as [sx | sx | | sx mx ex]; cbn [F64.has_sign F64.is_zero];
    intros Hs Hz; try discriminate.
  - destruct sx; [ discriminate | reflexivity ].
  - destruct sx; [ discriminate | ].
    change F64.c100 with (S754_finite false 7036874417766400 (-46)).
    unfold F64.mul, SFmul. apply (binary_round_aux_sign false). lia.
Qed.

Lemma mul_zero_c100 (x : float64) :
  F64.has_sign false x = true -> F64.is_zero x = true ->
  F64.mul x F64.c100 = F64.zero.
Proof.
  destruct x as [sx | sx | | sx mx ex]; cbn [F64.has_sign F64.is_zero];
    intros Hs Hz; try discriminate.
  destruct sx; [ discriminate | reflexivity ].
Qed.

(** The percentage computed from two [uint64] values. *)
Lemma percent_cases (a b : Z) :
  0 <= a < 2 ^ 64 -> 0 <= b < 2 ^ 64 ->
  let pct := F64.mul (F64.div (F64.of_Z a) (F64.of_Z b)) F64.c100 in
  (a = 0 -> b = 0 -> pct = F64.nan) /\
  (0 < a -> b = 0 -> pct = F64.pinf) /\
  (0 < b -> F64.has_sign false pct = true).
Proof.
  intros Ha Hb pct. unfold pct. repeat split.
  - intros -> ->. reflexivity.
  - intros Hpos ->. destruct (of_Z_pos_finite a ltac:(lia)) as (m & e & E).
    rewrite E. reflexivity.
  - intros Hpos. destruct (of_Z_pos_finite b ltac:(lia)) as (mb & eb & Eb).
    rewrite Eb.
    destruct (of_Z_cases a Ha) as [[-> Ea] | [Hapos (ma & ea & Ea)]].
    + reflexivity.
    + rewrite Ea.
      pose proof (div_finite_sign ma mb ea eb) as Hd.
      destruct (F64.is_zero (F64.div (S754_finite false ma ea) (S754_finite false mb eb))) eqn:Ez.
      * rewrite mul_zero_c100 by assumption. reflexivity.
      * apply mul_c100_sign; assumption.
Qed.

(** ** Case-insensitive matching *)

Lemma all_ascii_complete (a : ascii) : In a all_ascii.
Proof.
  unfold all_ascii. rewrite <- (ascii_nat_embedding a).
  apply in_map, in_seq. pose proof (nat_ascii_bounded a). lia.
Qed.

Lemma fold_eq_agrees_all :
  forallb (fun a => forallb (fold_eq_agrees a) all_ascii) all_ascii = true.
Proof. vm_compute. reflexivity. Qed.

Lemma fold_eq_lower (a b : ascii) :
  is_lower_letter b = true -> fold_eq a b = Ascii.eqb (lower a) b.
Proof.
  intros Hb. pose proof fold_eq_agrees_all as H.
  rewrite forallb_forall in H. specialize (H a (all_ascii_complete a)).
  rewrite forallb_forall in H. specialize (H b (all_ascii_complete b)).
  unfold fold_eq_agrees in H. rewrite Hb in H. cbn [implb] in H.
  apply eqb_prop in H. exact H.
Qed.

Lemma EqualFold_lower (s t : string) :
  lower_letters t = true ->
  EqualFold s t = (lower_string s =? t)%string.
Proof.
  revert t. induction s as [ | a s IH ]; intros [ | b t ] Ht; try reflexivity.
  cbn [lower_letters] in Ht. apply andb_true_iff in Ht as [Hb Ht].
  cbn [EqualFold lower_string String.eqb].
  rewrite (fold_eq_lower a b Hb), (IH t Ht).
  destruct (Ascii.eqb (lower a) b); reflexivity.
Qed.

(** ** Block I/O totals *)

Lemma blockIoStep_sums (a b : Z) (x : BlkioStatEntry) :
  blockIoStep (U64.wrap a, U64.wrap b) x =
  (U64.wrap (a + op_sum "read" [x]), U64.wrap (b + op_sum "write" [x])).
Proof.
  unfold blockIoStep. cbn [op_sum].
  rewrite !EqualFold_lower by reflexivity. rewrite !Z.add_0_r.
  unfold U64.add, U64.wrap.
  destruct (lower_string (Op x) =? "read")%string,
           (lower_string (Op x) =? "write")%string;
    rewrite ?Z.add_0_r, ?Zplus_mod_idemp_l; reflexivity.
Qed.

Lemma fold_blockIoStep_sums (records : list BlkioStatEntry) (a b : Z) :
  fold_left blockIoStep records (U64.wrap a, U64.wrap b) =
  (U64.wrap (a + op_sum "read" records), U64.wrap (b + op_sum "write" records)).
Proof.
  revert a b. induction records as [ | x rest IH ]; intros a b.
  - cbn [fold_left op_sum]. rewrite !Z.add_0_r. reflexivity.
  - cbn [fold_left]. rewrite blockIoStep_sums, IH.
    cbn [op_sum]. rewrite !Z.add_0_r, !Z.add_assoc. reflexivity.
Qed.

Lemma blockIoTotals_sums (records : list BlkioStatEntry) :
  blockIoTotals records =
  (U64.wrap (op_sum "read" records), U64.wrap (op_sum "write" records)).
Proof.
  unfold blockIoTotals.
  change (0, 0) with (U64.wrap 0, U64.wrap 0).
  rewrite fold_blockIoStep_sums. reflexivity.
Qed.


(** ** Name resolution *)

Lemma substring_all (s : string) : substring 0 (String.length s) s = s.
Proof.
  induction s as [ | a s IH ]; cbn; [ reflexivity | ]. f_equal. exact IH.
Qed.

Lemma TrimPrefix_separator (s : string) :
  TrimPrefix s "/" = strip_one_separator s.
Proof.
  unfold TrimPrefix, strip_one_separator.
  destruct s as [ | c s ]; [ reflexivity | ].
  cbn [String.prefix String.length].
  destruct (ascii_dec "/" c) as [ <- | Hne ].
  - change (byte_val "/" =? 47) with true.
    replace (String.prefix "" s) with true by (destruct s; reflexivity).
    cbn. replace (String.length s - 0)%nat with (String.length s) by lia.
    apply substring_all.
  - replace (byte_val c =? 47) with false; [ reflexivity | ].
    symmetry. apply Z.eqb_neq. intros H. apply Hne.
    unfold byte_val in H.
    rewrite <- (ascii_N_embedding c).
    replace (N_of_ascii c) with 47%N by lia. reflexivity.
Qed.

Lemma last_submatch (re : Regexp) (s whole : string) (groups : list string) :
  FindStringSubmatch re s = whole :: groups ->
  List.last (whole :: groups) "" =
  match NumSubexp re with
  | O => whole
  | S _ => List.last groups ""
  end.
Proof.
  intros H. destruct (FindStringSubmatch_length re s) as [E | E];
    rewrite H in E; [ discriminate | ].
  cbn [length] in E. injection E as E.
  destruct (NumSubexp re), groups as [ | g groups ]; try discriminate; reflexivity.
Qed.

Lemma resolve_cases (c : DockerCollector) (cont : Summary) :
  match resolve (containerRe c) (Names cont) with
  | None => FindStringSubmatch (containerRe c) (normalized cont) = []
  | Some label =>
      exists whole groups,
        FindStringSubmatch (containerRe c) (normalized cont) = whole :: groups /\
        List.last (whole :: groups) "" = label
  end.
Proof.
  unfold resolve, normalized. rewrite TrimPrefix_separator.
  destruct (FindStringSubmatch _ _) as [ | whole groups ] eqn:E; [ reflexivity | ].
  exists whole, groups. split; [ reflexivity | ].
  apply (last_submatch _ _ _ _ E).
Qed.

Lemma unit_no_match (c : DockerCollector) (cont : Summary) :
  FindStringSubmatch (containerRe c) (normalized cont) = [] ->
  processContainer c cont = ret tt.
Proof.
  intros H. unfold processContainer. fold (normalized cont). rewrite H. reflexivity.
Qed.

Lemma metric_name_view (ms : list Metric) :
  map metric_name ms = map (fun v => fst (fst (fst v))) (map view ms).
Proof. rewrite map_map. reflexivity. Qed.

(** ** Failure of the inspect call *)

(** Claim C1, as amended. For every container that passes the name filter,
    a failure of the inspect call ends the process: the three lifecycle
    gauges computed from the enumerator's record have been sent, the error
    is logged at fatal level and the process exits with status 1; neither
    the restart counter nor any later metric is sent and the stats call is
    never made. *)
Theorem inspect_failure_is_fatal (c : DockerCollector) (cont : Summary)
    (label : string) (e : error) :
  resolve (containerRe c) (Names cont) = Some label ->
  ContainerInspect (cli c) (ID cont) = Err e ->
  exists q,
    processContainer c cont start = Exit 1 q /\
    map view (ch q) = lifecycle_views (State cont) label /\
    ~ In restarts_name (map metric_name (ch q)) /\
    logged q = [{| level := FatalLevel; message := e |}] /\
    calls q = [CallContainerInspect (ID cont)].
Proof.
  intros Hr Hi. pose proof (resolve_cases c cont) as Hc. rewrite Hr in Hc.
  destruct Hc as (whole & groups & Hm & Hl).
  destruct (unit_inspect_error c cont whole groups Hm e Hi) as (q & E & V & L & K).
  rewrite Hl in V. exists q. repeat split; try assumption.
  rewrite metric_name_view, V. cbn. unfold restarts_name.
  intros [H | [H | [H | []]]]; discriminate.
Qed.

Lemma inspect_failure_is_fatal_witness :
  resolve re_any (Names web1) = Some "web-1" /\
  ContainerInspect runtime_inspect_fails (ID web1) = Err "No such container: 4f1c2a9e" /\
  exists q,
    processContainer (dex runtime_inspect_fails) web1 start = Exit 1 q /\
    map view (ch q) =
      [("dex_container_running", GaugeValue, F64.one, ["web-1"]);
       ("dex_container_restarting", GaugeValue, F64.zero, ["web-1"]);
       ("dex_container_exited", GaugeValue, F64.zero, ["web-1"])] /\
    ~ In restarts_name (map metric_name (ch q)) /\
    logged q = [{| level := FatalLevel; message := "No such container: 4f1c2a9e" |}] /\
    calls q = [CallContainerInspect "4f1c2a9e"].
Proof.
  split; [ reflexivity | ]. split; [ reflexivity | ].
  apply (inspect_failure_is_fatal (dex runtime_inspect_fails) web1 "web-1"
           "No such container: 4f1c2a9e"); reflexivity.
Defined.

(** The statement of claim C1 fails on the container of scenario A when the
    inspect call fails: the process is terminated. *)
Lemma inspect_failure_not_recoverable :
  ~ inspect_failure_recoverable (dex runtime_inspect_fails) web1.
Proof.
  intros H.
  destruct (H "No such container: 4f1c2a9e" "web-1" eq_refl eq_refl) as [Hx _].
  vm_compute in Hx. discriminate.
Qed.

(** ** Derived metrics *)

Lemma wrap_in_range (z : Z) : 0 <= U64.wrap z < 2 ^ 64.
Proof. unfold U64.wrap, U64.modulus. apply Z.mod_pos_bound. lia. Qed.

Lemma wrap_small (z : Z) : U64.in_range z -> U64.wrap z = z.
Proof. unfold U64.in_range, U64.wrap. intros H. apply Z.mod_small. exact H. Qed.

Lemma sub_no_borrow (a b : Z) :
  U64.in_range a -> U64.in_range b -> b <= a -> U64.sub a b = a - b.
Proof.
  unfold U64.in_range, U64.sub, U64.wrap. intros Ha Hb Hle.
  apply Z.mod_small. lia.
Qed.


Lemma CPUMetrics_views (s : StatsResponse) (cName : string) :
  map view (emitted (CPUMetrics s cName)) =
  [("dex_cpu_utilization_percent", GaugeValue,
    F64.mul (F64.div (F64.of_Z (cpuDelta s)) (F64.of_Z (systemDelta s))) F64.c100,
    [cName]);
   ("dex_cpu_utilization_seconds_total", CounterValue,
    F64.div (F64.of_Z (TotalUsage (CPUUsage_ (CPUStats_ s)))) F64.c1e9,
    [cName])].
Proof. reflexivity. Qed.

Lemma memoryMetrics_views (s : StatsResponse) (cName : string) :
  map view (emitted (memoryMetrics s cName)) =
  [("dex_memory_usage_bytes", CounterValue, F64.of_Z (memoryUsage s), [cName]);
   ("dex_memory_total_bytes", GaugeValue, F64.of_Z (Limit (MemoryStats_ s)), [cName]);
   ("dex_memory_utilization_percent", GaugeValue,
    F64.mul (F64.div (F64.of_Z (memoryUsage s)) (F64.of_Z (Limit (MemoryStats_ s))))
            F64.c100,
    [cName])].
Proof. reflexivity. Qed.

Lemma CPUMetrics_emits (s : StatsResponse) (cName : string) :
  emits (CPUMetrics s cName) (emitted (CPUMetrics s cName)).
Proof.
  intros p. unfold emitted, CPUMetrics, bind, send.
  cbn [ch logged calls final start app]. rewrite <- app_assoc. reflexivity.
Qed.

Lemma memoryMetrics_emits (s : StatsResponse) (cName : string) :
  emits (memoryMetrics s cName) (emitted (memoryMetrics s cName)).
Proof.
  intros p. unfold emitted, memoryMetrics, bind, send.
  cbn [ch logged calls final start app]. rewrite <- !app_assoc. reflexivity.
Qed.

Lemma cpu_percent_value (s : StatsResponse) (cName : string) :
  value_of "dex_cpu_utilization_percent" (emitted (CPUMetrics s cName)) =
  Some (F64.mul (F64.div (F64.of_Z (cpuDelta s)) (F64.of_Z (systemDelta s))) F64.c100).
Proof. reflexivity. Qed.

Lemma memory_percent_value (s : StatsResponse) (cName : string) :
  value_of "dex_memory_utilization_percent" (emitted (memoryMetrics s cName)) =
  Some (F64.mul (F64.div (F64.of_Z (memoryUsage s))
                         (F64.of_Z (Limit (MemoryStats_ s)))) F64.c100).
Proof. reflexivity. Qed.

(** Claim C3, as amended. For every snapshot whose denominator is zero no
    division fault is raised and the percentage is still emitted, with the
    IEEE-754 result of the division by zero: when [systemDelta] is zero,
    [cpu_utilization_percent] is [NaN] if [cpuDelta] is zero too and [+Inf]
    otherwise; when [memoryLimit] is zero, [memory_utilization_percent] is
    [NaN] if the usage is zero too and [+Inf] otherwise. *)
Theorem zero_denominator_percent (s : StatsResponse) (cName : string) :
  (systemDelta s = 0 ->
   value_of "dex_cpu_utilization_percent" (emitted (CPUMetrics s cName)) =
     Some (if cpuDelta s =? 0 then F64.nan else F64.pinf)) /\
  (Limit (MemoryStats_ s) = 0 ->
   value_of "dex_memory_utilization_percent" (emitted (memoryMetrics s cName)) =
     Some (if memoryUsage s =? 0 then F64.nan else F64.pinf)) /\
  exited (CPUMetrics s cName start) = false /\
  exited (memoryMetrics s cName start) = false.
Proof.
  repeat split.
  - intros Hz. rewrite cpu_percent_value, Hz. f_equal.
    pose proof (wrap_in_range
      (TotalUsage (CPUUsage_ (CPUStats_ s)) - TotalUsage (CPUUsage_ (PreCPUStats s)))) as Hr.
    fold (U64.sub (TotalUsage (CPUUsage_ (CPUStats_ s)))
                  (TotalUsage (CPUUsage_ (PreCPUStats s)))) in Hr.
    fold (cpuDelta s) in Hr.
    destruct (percent_cases (cpuDelta s) 0 Hr ltac:(lia)) as (Hnan & Hinf & _).
    destruct (Z.eqb_spec (cpuDelta s) 0) as [E | E].
    + apply Hnan; [ exact E | reflexivity ].
    + apply Hinf; [ lia | reflexivity ].
  - intros Hz. rewrite memory_percent_value, Hz. f_equal.
    pose proof (wrap_in_range
      (Usage (MemoryStats_ s) - index (Stats (MemoryStats_ s)) "cache" 0)) as Hr.
    fold (U64.sub (Usage (MemoryStats_ s)) (index (Stats (MemoryStats_ s)) "cache" 0)) in Hr.
    fold (memoryUsage s) in Hr.
    destruct (percent_cases (memoryUsage s) 0 Hr ltac:(lia)) as (Hnan & Hinf & _).
    destruct (Z.eqb_spec (memoryUsage s) 0) as [E | E].
    + apply Hnan; [ exact E | reflexivity ].
    + apply Hinf; [ lia | reflexivity ].
Qed.

Lemma zero_denominator_percent_witness :
  systemDelta zeroStatsResponse = 0 /\
  Limit (MemoryStats_ zeroStatsResponse) = 0 /\
  value_of "dex_cpu_utilization_percent"
    (emitted (CPUMetrics zeroStatsResponse "web-1")) = Some F64.nan /\
  value_of "dex_memory_utilization_percent"
    (emitted (memoryMetrics zeroStatsResponse "web-1")) = Some F64.nan.
Proof.
  destruct (zero_denominator_percent zeroStatsResponse "web-1") as (Hc & Hm & _).
  split; [ reflexivity | ]. split; [ reflexivity | ].
  split; [ apply Hc; reflexivity | apply Hm; reflexivity ].
Defined.

(** The statement of claim C3 fails on the zero-valued snapshot: both
    percentages are [NaN], not 0. *)
Lemma zero_denominator_not_zero :
  ~ zero_denominator_yields_zero zeroStatsResponse "web-1".
Proof.
  intros [Hc _]. destruct (Hc eq_refl) as (v & Hv & Hz).
  vm_compute in Hv. injection Hv as <-. discriminate.
Qed.

Lemma resourceMetrics_views (s : StatsResponse) (cName : string) :
  map view (emitted (resourceMetrics s cName)) =
  [("dex_block_io_read_bytes_total", CounterValue,
    F64.of_Z (fst (blockIoTotals (IoServiceBytesRecursive (BlkioStats_ s)))), [cName]);
   ("dex_block_io_write_bytes_total", CounterValue,
    F64.of_Z (snd (blockIoTotals (IoServiceBytesRecursive (BlkioStats_ s)))), [cName]);
   ("dex_memory_usage_bytes", CounterValue, F64.of_Z (memoryUsage s), [cName]);
   ("dex_memory_total_bytes", GaugeValue, F64.of_Z (Limit (MemoryStats_ s)), [cName]);
   ("dex_memory_utilization_percent", GaugeValue,
    F64.mul (F64.div (F64.of_Z (memoryUsage s)) (F64.of_Z (Limit (MemoryStats_ s))))
            F64.c100, [cName]);
   ("dex_network_rx_bytes_total", CounterValue,
    F64.of_Z (RxBytes (index (Networks s) "eth0" zeroNetworkStats)), [cName]);
   ("dex_network_tx_bytes_total", CounterValue,
    F64.of_Z (TxBytes (index (Networks s) "eth0" zeroNetworkStats)), [cName]);
   ("dex_cpu_utilization_percent", GaugeValue,
    F64.mul (F64.div (F64.of_Z (cpuDelta s)) (F64.of_Z (systemDelta s))) F64.c100,
    [cName]);
   ("dex_cpu_utilization_seconds_total", CounterValue,
    F64.div (F64.of_Z (TotalUsage (CPUUsage_ (CPUStats_ s)))) F64.c1e9, [cName]);
   ("dex_pids_current", CounterValue, F64.of_Z (Current (PidsStats_ s)), [cName])].
Proof.
  unfold emitted, resourceMetrics, blockIoMetrics.
  destruct (blockIoTotals _) as [readTotal writeTotal]. reflexivity.
Qed.

Lemma filter_view (f : string -> bool) (ms : list Metric) :
  map view (List.filter (fun m => f (metric_name m)) ms) =
  List.filter (fun v => f (fst (fst (fst v)))) (map view ms).
Proof.
  induction ms as [ | m ms IH ]; [ reflexivity | ].
  cbn [List.filter map]. change (fst (fst (fst (view m)))) with (metric_name m).
  destruct (f (metric_name m)); cbn [map]; rewrite IH; reflexivity.
Qed.

(** Claim C4. For every snapshot with a nonzero [systemDelta],
    [CPUMetrics] sends exactly two metrics: the gauge
    [dex_cpu_utilization_percent] with value
    [100 * (currentTotalUsage - previousTotalUsage) /
           (currentSystemUsage - previousSystemUsage)]
    and the counter [dex_cpu_utilization_seconds_total] with value
    [currentTotalUsage / 1e9]; the subtractions are those of [uint64] and
    are the plain differences when the counters did not go backwards; the
    gauge is a number and is not negative; and these two are the only CPU
    metrics of a running container. *)
Theorem CPUMetrics_spec (s : StatsResponse) (cName : string) :
  systemDelta s <> 0 ->
  emits (CPUMetrics s cName) (emitted (CPUMetrics s cName)) /\
  map view (emitted (CPUMetrics s cName)) =
    [("dex_cpu_utilization_percent", GaugeValue,
      F64.mul F64.c100
        (F64.div (F64.of_Z (U64.sub (TotalUsage (CPUUsage_ (CPUStats_ s)))
                                    (TotalUsage (CPUUsage_ (PreCPUStats s)))))
                 (F64.of_Z (U64.sub (SystemUsage (CPUStats_ s))
                                    (SystemUsage (PreCPUStats s))))),
      [cName]);
     ("dex_cpu_utilization_seconds_total", CounterValue,
      F64.div (F64.of_Z (TotalUsage (CPUUsage_ (CPUStats_ s)))) (F64.of_Z (10 ^ 9)),
      [cName])] /\
  (cpu_in_range (CPUStats_ s) -> cpu_in_range (PreCPUStats s) ->
   TotalUsage (CPUUsage_ (PreCPUStats s)) <= TotalUsage (CPUUsage_ (CPUStats_ s)) ->
   SystemUsage (PreCPUStats s) <= SystemUsage (CPUStats_ s) ->
   cpuDelta s =
     TotalUsage (CPUUsage_ (CPUStats_ s)) - TotalUsage (CPUUsage_ (PreCPUStats s)) /\
   systemDelta s = SystemUsage (CPUStats_ s) - SystemUsage (PreCPUStats s)) /\
  (exists v,
     value_of "dex_cpu_utilization_percent" (emitted (CPUMetrics s cName)) = Some v /\
     F64.has_sign false v = true) /\
  (forall c cont inspect body,
     resolve (containerRe c) (Names cont) = Some cName ->
     ContainerInspect (cli c) (ID cont) = Ok inspect ->
     State cont = "running" ->
     ContainerStats (cli c) (ID cont) = Ok body ->
     decoded body = s ->
     map view (List.filter is_cpu_metric (ch (final (processContainer c cont start)))) =
     map view (emitted (CPUMetrics s cName))).
Proof.
  intros Hnz. split; [ apply CPUMetrics_emits | ]. split; [ | split; [ | split ] ].
  - rewrite CPUMetrics_views, mul_comm. reflexivity.
  - intros [Hc1 Hc2] [Hp1 Hp2] Ht Hs. unfold cpuDelta, systemDelta.
    split; apply sub_no_borrow; assumption.
  - rewrite cpu_percent_value. eexists. split; [ reflexivity | ].
    assert (Hc : 0 <= cpuDelta s < 2 ^ 64) by apply wrap_in_range.
    assert (Hs : 0 <= systemDelta s < 2 ^ 64) by apply wrap_in_range.
    apply (percent_cases (cpuDelta s) (systemDelta s) Hc Hs). lia.
  - intros c cont inspect body Hr Hi Hst Hb Hd.
    pose proof (resolve_cases c cont) as Hc. rewrite Hr in Hc.
    destruct Hc as (whole & groups & Hm & Hl).
    assert (Hrun : (State cont =? "running")%string = true)
      by (apply String.eqb_eq; exact Hst).
    destruct (unit_running c cont whole groups Hm inspect body Hi Hrun Hb)
      as (q & E & V & _).
    rewrite E. cbn [final]. unfold is_cpu_metric. rewrite filter_view, V.
    rewrite Hl, Hd, resourceMetrics_views, CPUMetrics_views. reflexivity.
Qed.

Lemma CPUMetrics_spec_witness :
  systemDelta snapshotA <> 0 /\
  map view (emitted (CPUMetrics snapshotA "web-1")) =
    [("dex_cpu_utilization_percent", GaugeValue, F64.of_Z 10, ["web-1"]);
     ("dex_cpu_utilization_seconds_total", CounterValue,
      F64.div (F64.of_Z 1) (F64.of_Z 2), ["web-1"])].
Proof.
  assert (H : systemDelta snapshotA <> 0) by (vm_compute; discriminate).
  split; [ exact H | ].
  destruct (CPUMetrics_spec snapshotA "web-1" H) as (_ & V & _).
  rewrite V. vm_compute. reflexivity.
Defined.

Lemma cache_in_range (m : MemoryStats) :
  mem_in_range m -> U64.in_range (index (Stats m) "cache" 0).
Proof.
  intros (_ & _ & H). unfold index.
  destruct (Stats m !! "cache") as [ v | ] eqn:E; cbn [default].
  - apply (H _ _ E).
  - unfold U64.in_range, U64.modulus. lia.
Qed.

(** Claim C5. For every snapshot, [memoryMetrics] sends the counter
    [dex_memory_usage_bytes] with the raw usage minus the value under the
    key ["cache"] of the stat mapping (zero when the key is missing), the
    gauge [dex_memory_total_bytes] with the limit and the gauge
    [dex_memory_utilization_percent] with [100 * usage / total], which for
    a nonzero limit is a number and is not negative. *)
Theorem memoryMetrics_spec (s : StatsResponse) (cName : string) :
  mem_in_range (MemoryStats_ s) ->
  let cache := default 0 (Stats (MemoryStats_ s) !! "cache") in
  let usage := U64.sub (Usage (MemoryStats_ s)) cache in
  let total := Limit (MemoryStats_ s) in
  emits (memoryMetrics s cName) (emitted (memoryMetrics s cName)) /\
  map view (emitted (memoryMetrics s cName)) =
    [("dex_memory_usage_bytes", CounterValue, F64.of_Z usage, [cName]);
     ("dex_memory_total_bytes", GaugeValue, F64.of_Z total, [cName]);
     ("dex_memory_utilization_percent", GaugeValue,
      F64.mul F64.c100 (F64.div (F64.of_Z usage) (F64.of_Z total)), [cName])] /\
  (Stats (MemoryStats_ s) !! "cache" = None -> usage = Usage (MemoryStats_ s)) /\
  (cache <= Usage (MemoryStats_ s) -> usage = Usage (MemoryStats_ s) - cache) /\
  (total <> 0 ->
   F64.has_sign false
     (F64.mul F64.c100 (F64.div (F64.of_Z usage) (F64.of_Z total))) = true).
Proof.
  intros Hr cache usage total.
  split; [ apply memoryMetrics_emits | ]. split; [ | split; [ | split ] ].
  - rewrite memoryMetrics_views, mul_comm. reflexivity.
  - intros Hnone. unfold usage, cache. rewrite Hnone. cbn [default].
    unfold U64.sub. rewrite Z.sub_0_r. apply wrap_small. apply Hr.
  - intros Hle. apply sub_no_borrow; [ apply Hr | apply cache_in_range, Hr | exact Hle ].
  - intros Hnz. rewrite mul_comm.
    assert (Hu : 0 <= usage < 2 ^ 64) by apply wrap_in_range.
    assert (Ht : 0 <= total < 2 ^ 64) by apply Hr.
    apply (percent_cases usage total Hu Ht). lia.
Qed.

Lemma snapshotA_mem_in_range : mem_in_range (MemoryStats_ snapshotA).
Proof.
  unfold mem_in_range, U64.in_range, U64.modulus. cbn [MemoryStats_ snapshotA Usage Limit Stats].
  split; [ lia | ]. split; [ lia | ].
  intros k v H. apply lookup_singleton_Some in H as [_ <-]. lia.
Defined.

Lemma memoryMetrics_spec_witness :
  mem_in_range (MemoryStats_ snapshotA) /\
  map view (emitted (memoryMetrics snapshotA "web-1")) =
    [("dex_memory_usage_bytes", CounterValue, F64.of_Z 104857600, ["web-1"]);
     ("dex_memory_total_bytes", GaugeValue, F64.of_Z 209715200, ["web-1"]);
     ("dex_memory_utilization_percent", GaugeValue, F64.of_Z 50, ["web-1"])].
Proof.
  split; [ exact snapshotA_mem_in_range | ].
  destruct (memoryMetrics_spec snapshotA "web-1" snapshotA_mem_in_range) as (_ & V & _).
  rewrite V. vm_compute. reflexivity.
Defined.




(** When only the CPU total goes backwards the gauge is about
    1.8 * 10^12 percent. *)
Example cpu_backwards_gauge :
  value_of "dex_cpu_utilization_percent"
    (emitted (CPUMetrics snapshot_cpu_backwards "web-1")) =
  Some (S754_finite false 7555786372550472 (-12)).
Proof. vm_compute. reflexivity. Qed.

(** ** Failure to decode the stats payload *)

(** Claim C2, the code at the failing input: a running container whose
    stats body is not JSON. [processContainer] logs the decode error, does
    not stop, and goes on to send all ten resource metrics derived from the
    zero-valued snapshot, two of them [NaN]. *)
Theorem decode_failure_still_emits_resource_metrics :
  let r := processContainer (dex runtime_malformed_stats) web1 start in
  ContainerStats runtime_malformed_stats (ID web1) = Ok body_malformed /\
  decodeErr body_malformed <> None /\
  decoded body_malformed = zeroStatsResponse /\
  exited r = false /\
  logged (final r) =
    [{| level := ErrorLevel;
        message := "can't read api stats: invalid character '<' looking for beginning of value" |}] /\
  map metric_name (ch (final r)) =
    (lifecycle_names ++ [restarts_name] ++ resource_names)%list /\
  map metric_name (List.filter is_resource_metric (ch (final r))) = resource_names /\
  value_of "dex_cpu_utilization_percent" (ch (final r)) = Some F64.nan /\
  value_of "dex_memory_utilization_percent" (ch (final r)) = Some F64.nan /\
  value_of "dex_pids_current" (ch (final r)) = Some F64.zero.
Proof.
  cbv zeta. split; [ reflexivity | ]. split; [ discriminate | ].
  repeat split; vm_compute; reflexivity.
Qed.

(** ** The name filter *)

Lemma labels_from_views (ms : list Metric) (label : string) :
  Forall (fun v => snd v = [label]) (map view ms) ->
  Forall (fun m => labelValues m = [label]) ms.
Proof. intros H. rewrite Forall_map in H. exact H. Qed.

Lemma lifecycle_views_labels (state label : string) :
  Forall (fun v => snd v = [label]) (lifecycle_views state label).
Proof. repeat constructor. Qed.

Lemma resource_views_labels (s : StatsResponse) (label : string) :
  Forall (fun v => snd v = [label]) (map view (emitted (resourceMetrics s label))).
Proof. rewrite resourceMetrics_views. repeat constructor. Qed.

Lemma unit_labels (c : DockerCollector) (cont : Summary)
    (whole : string) (groups : list string) :
  FindStringSubmatch (containerRe c) (normalized cont) = whole :: groups ->
  let label := List.last (whole :: groups) "" in
  let r := processContainer c cont start in
  firstn 3 (map view (ch (final r))) = lifecycle_views (State cont) label /\
  Forall (fun m => labelValues m = [label]) (ch (final r)).
Proof.
  intros Hm label r. unfold r.
  destruct (ContainerInspect (cli c) (ID cont)) as [ inspect | e ] eqn:Hi.
  - destruct (State cont =? "running")%string eqn:Hs.
    + destruct (ContainerStats (cli c) (ID cont)) as [ body | e ] eqn:Hb.
      * destruct (unit_running c cont whole groups Hm inspect body Hi Hs Hb)
          as (q & E & V & _).
        rewrite E. cbn [final]. split; [ rewrite V; reflexivity | ].
        apply labels_from_views. rewrite V.
        apply Forall_app. split; [ apply lifecycle_views_labels | ].
        constructor; [ reflexivity | apply resource_views_labels ].
      * destruct (unit_stats_error c cont whole groups Hm inspect e Hi Hs Hb)
          as (q & E & V & _).
        rewrite E. cbn [final]. split; [ rewrite V; reflexivity | ].
        apply labels_from_views. rewrite V.
        apply Forall_app. split; [ apply lifecycle_views_labels | ].
        repeat constructor.
    + destruct (unit_not_running c cont whole groups Hm inspect Hi Hs)
        as (q & E & V & _).
      rewrite E. cbn [final]. split; [ rewrite V; reflexivity | ].
      apply labels_from_views. rewrite V.
      apply Forall_app. split; [ apply lifecycle_views_labels | ].
      repeat constructor.
  - destruct (unit_inspect_error c cont whole groups Hm e Hi) as (q & E & V & _).
    rewrite E. cbn [final]. split; [ rewrite V; reflexivity | ].
    apply labels_from_views. rewrite V. apply lifecycle_views_labels.
Qed.

Lemma Join_concat (names : list string) (sep : string) :
  Join names sep = String.concat sep names.
Proof.
  induction names as [ | a [ | b rest ] IH ]; try reflexivity.
  cbn [Join String.concat] in *. rewrite IH. reflexivity.
Qed.

(** Claim C6. For every container record the names are joined with [";"]
    and one leading path separator is stripped, then the compiled pattern
    is applied: with one or more capture groups the label is the last
    captured group, otherwise the whole match, and every metric of the
    container carries that label; when the normalised name does not match,
    the container contributes no metric at all, not even the lifecycle
    ones. *)
Theorem name_resolution (c : DockerCollector) (cont : Summary) :
  let joined := String.concat ";" (Names cont) in
  let name := strip_one_separator joined in
  (forall a b, Names cont = [a; b] -> joined = (a ++ ";" ++ b)%string) /\
  (forall a, joined = String "/" a -> name = a) /\
  normalized cont = name /\
  match FindStringSubmatch (containerRe c) name with
  | [] =>
      resolve (containerRe c) (Names cont) = None /\
      processContainer c cont = ret tt /\
      emitted (processContainer c cont) = []
  | whole :: groups =>
      let label :=
        match NumSubexp (containerRe c) with
        | O => whole
        | S _ => List.last groups ""
        end in
      let r := processContainer c cont start in
      length groups = NumSubexp (containerRe c) /\
      resolve (containerRe c) (Names cont) = Some label /\
      firstn 3 (map view (ch (final r))) = lifecycle_views (State cont) label /\
      Forall (fun m => labelValues m = [label]) (ch (final r))
  end.
Proof.
  cbv zeta.
  assert (Hn : normalized cont =
               strip_one_separator (String.concat ";" (Names cont))).
  { unfold normalized. rewrite TrimPrefix_separator, Join_concat. reflexivity. }
  split; [ intros a b ->; reflexivity | ].
  split; [ intros a ->; reflexivity | ].
  split; [ exact Hn | ].
  rewrite <- Hn.
  destruct (FindStringSubmatch (containerRe c) (normalized cont))
    as [ | whole groups ] eqn:Hm.
  - split; [ | split ].
    + unfold resolve. rewrite <- TrimPrefix_separator. fold (normalized cont).
      rewrite Hm. reflexivity.
    + apply unit_no_match, Hm.
    + unfold emitted. rewrite (unit_no_match c cont Hm). reflexivity.
  - rewrite <- (last_submatch _ _ _ _ Hm).
    split; [ | split ].
    + destruct (FindStringSubmatch_length (containerRe c) (normalized cont)) as [E | E];
        rewrite Hm in E; [ discriminate | ].
      cbn [length] in E. injection E as E. exact E.
    + unfold resolve. rewrite <- TrimPrefix_separator. fold (normalized cont).
      rewrite Hm, (last_submatch _ _ _ _ Hm). reflexivity.
    + apply (unit_labels c cont whole groups Hm).
Qed.

Lemma name_resolution_witness :
  normalized web1_aliased = "web-1;/proxy/web" /\
  resolve re_any (Names web1_aliased) = Some "web-1;/proxy/web" /\
  Forall (fun m => labelValues m = ["web-1;/proxy/web"])
         (emitted (processContainer (dex runtime_exited) web1_aliased)) /\
  resolve (re_prefix_rest "web-") (Names web1_aliased) = Some "1;/proxy/web" /\
  emitted (processContainer {| cli := runtime_exited; containerRe := re_prefix "db-" |}
                            web1_aliased) = [].
Proof.
  pose proof (name_resolution (dex runtime_exited) web1_aliased) as H1.
  pose proof (name_resolution {| cli := runtime_exited;
                                 containerRe := re_prefix_rest "web-" |} web1_aliased) as H2.
  pose proof (name_resolution {| cli := runtime_exited;
                                 containerRe := re_prefix "db-" |} web1_aliased) as H3.
  cbv zeta in H1, H2, H3.
  destruct H1 as (_ & _ & N1 & M1).
  destruct H2 as (_ & _ & _ & M2).
  destruct H3 as (_ & _ & _ & M3).
  change (FindStringSubmatch (containerRe (dex runtime_exited))
            (strip_one_separator (String.concat ";" (Names web1_aliased))))
    with ["web-1;/proxy/web"] in M1.
  change (FindStringSubmatch
            (containerRe {| cli := runtime_exited; containerRe := re_prefix_rest "web-" |})
            (strip_one_separator (String.concat ";" (Names web1_aliased))))
    with ["web-1;/proxy/web"; "1;/proxy/web"] in M2.
  change (FindStringSubmatch
            (containerRe {| cli := runtime_exited; containerRe := re_prefix "db-" |})
            (strip_one_separator (String.concat ";" (Names web1_aliased))))
    with (@nil string) in M3.
  cbv iota zeta in M1, M2, M3.
  destruct M1 as (_ & R1 & _ & F1).
  destruct M2 as (_ & R2 & _).
  destruct M3 as (_ & _ & E3).
  split; [ exact N1 | ]. split; [ exact R1 | ]. split; [ exact F1 | ].
  split; [ exact R2 | exact E3 ].
Defined.

(** ** Resource metrics only for running containers *)

Lemma resource_names_of_views (s : StatsResponse) (label : string)
    (pre : list (string * ValueType * float64 * list string)) (ms : list Metric) :
  map view ms = (pre ++ map view (emitted (resourceMetrics s label)))%list ->
  List.filter (fun v => existsb (String.eqb (fst (fst (fst v)))) resource_names) pre = [] ->
  map metric_name (List.filter is_resource_metric ms) = resource_names.
Proof.
  intros V Hpre. rewrite metric_name_view. unfold is_resource_metric.
  rewrite (filter_view (fun n => existsb (String.eqb n) resource_names)), V.
  rewrite List.filter_app, Hpre, resourceMetrics_views. reflexivity.
Qed.

(** Claim C7, as amended. For every filtered container whose inspect call
    succeeds, the stats call is made if and only if the enumerated state is
    ["running"], and resource metrics are sent if and only if the state is
    ["running"] and the stats call succeeds. A container in any other state
    yields exactly the three lifecycle gauges and the restart counter and
    no resource metric; a running one whose snapshot is fetched yields,
    after these four, the ten resource metrics derived from the
    snapshot. *)
Theorem stats_only_when_running (c : DockerCollector) (cont : Summary)
    (label : string) (inspect : InspectResponse) :
  resolve (containerRe c) (Names cont) = Some label ->
  ContainerInspect (cli c) (ID cont) = Ok inspect ->
  let r := processContainer c cont start in
  (In (CallContainerStats (ID cont) false) (calls (final r)) <->
   State cont = "running") /\
  (List.filter is_resource_metric (ch (final r)) <> [] <->
   State cont = "running" /\ exists body, ContainerStats (cli c) (ID cont) = Ok body) /\
  (State cont <> "running" ->
   r = Next tt (final r) /\
   map view (ch (final r)) =
     (lifecycle_views (State cont) label ++ [restarts_view inspect label])%list /\
   List.filter is_resource_metric (ch (final r)) = []) /\
  (State cont = "running" ->
   forall body, ContainerStats (cli c) (ID cont) = Ok body ->
     r = Next tt (final r) /\
     map view (ch (final r)) =
       (lifecycle_views (State cont) label ++ [restarts_view inspect label] ++
        map view (emitted (resourceMetrics (decoded body) label)))%list /\
     map metric_name (List.filter is_resource_metric (ch (final r))) = resource_names).
Proof.
  intros Hr Hi r. unfold r.
  pose proof (resolve_cases c cont) as Hc. rewrite Hr in Hc.
  destruct Hc as (whole & groups & Hm & Hl).
  assert (Hnone : forall q,
    map view (ch q) =
      (lifecycle_views (State cont) label ++ [restarts_view inspect label])%list ->
    List.filter is_resource_metric (ch q) = []).
  { intros q V. apply (map_eq_nil view). unfold is_resource_metric.
    rewrite (filter_view (fun n => existsb (String.eqb n) resource_names)), V.
    reflexivity. }
  destruct (String.eqb_spec (State cont) "running") as [Hs | Hs].
  - assert (Hrun : (State cont =? "running")%string = true)
      by (apply String.eqb_eq; exact Hs).
    destruct (ContainerStats (cli c) (ID cont)) as [ body | e ] eqn:Hb.
    + destruct (unit_running c cont whole groups Hm inspect body Hi Hrun Hb)
        as (q & E & V & _ & K).
      rewrite E, Hl in *. cbn [final].
      assert (Hnames :
        map metric_name (List.filter is_resource_metric (ch q)) = resource_names).
      { apply (resource_names_of_views (decoded body) label
                 (lifecycle_views (State cont) label ++ [restarts_view inspect label])).
        - rewrite V, <- app_assoc. reflexivity.
        - reflexivity. }
      split; [ | split; [ | split ] ].
      * rewrite K. split; [ intros _; exact Hs | intros _; right; left; reflexivity ].
      * split; [ intros _; split; [ exact Hs | eauto ] | ].
        intros _ Hnil. rewrite Hnil in Hnames. discriminate.
      * intros Hn. contradiction.
      * intros _ body' Hb'. injection Hb' as <-.
        split; [ reflexivity | ]. split; [ exact V | exact Hnames ].
    + destruct (unit_stats_error c cont whole groups Hm inspect e Hi Hrun Hb)
        as (q & E & V & _ & K).
      rewrite E, Hl in *. cbn [final].
      split; [ | split; [ | split ] ].
      * rewrite K. split; [ intros _; exact Hs | intros _; right; left; reflexivity ].
      * split; [ intros Hne; exfalso; apply Hne, (Hnone q V) | ].
        intros [_ [body Hbody]]. discriminate.
      * intros Hn. contradiction.
      * intros _ body Hbody. discriminate.
  - assert (Hrun : (State cont =? "running")%string = false)
      by (apply String.eqb_neq; exact Hs).
    destruct (unit_not_running c cont whole groups Hm inspect Hi Hrun)
      as (q & E & V & _ & K).
    rewrite E, Hl in *. cbn [final].
    split; [ | split; [ | split ] ].
    + rewrite K. split; [ | intros Hn; contradiction ].
      intros [H | []]. discriminate.
    + split; [ intros Hne; exfalso; apply Hne, (Hnone q V) | ].
      intros [Hn _]. contradiction.
    + intros _. split; [ reflexivity | ]. split; [ exact V | exact (Hnone q V) ].
    + intros Hn. contradiction.
Qed.

Lemma stats_only_when_running_witness :
  resolve re_any (Names web1_exited) = Some "web-1" /\
  ContainerInspect runtime_exited (ID web1_exited) = Ok {| RestartCount := 2 |} /\
  State web1_exited <> "running" /\
  map view (emitted (processContainer (dex runtime_exited) web1_exited)) =
    [("dex_container_running", GaugeValue, F64.zero, ["web-1"]);
     ("dex_container_restarting", GaugeValue, F64.zero, ["web-1"]);
     ("dex_container_exited", GaugeValue, F64.one, ["web-1"]);
     ("dex_container_restarts_total", CounterValue, F64.of_Z 2, ["web-1"])] /\
  ~ In (CallContainerStats (ID web1_exited) false)
       (calls (final (processContainer (dex runtime_exited) web1_exited start))).
Proof.
  assert (Hs : State web1_exited <> "running") by discriminate.
  split; [ reflexivity | ]. split; [ reflexivity | ]. split; [ exact Hs | ].
  destruct (stats_only_when_running (dex runtime_exited) web1_exited "web-1"
              {| RestartCount := 2 |} eq_refl eq_refl) as (Hiff & _ & Hn & _).
  destruct (Hn Hs) as (_ & V & _).
  split.
  - unfold emitted. rewrite V. reflexivity.
  - intros Hin. apply Hs, Hiff, Hin.
Defined.

(** The statement of claim C7 fails when the inspect call fails: an exited
    container then yields the three lifecycle gauges without the restart
    counter, and a running container gets no stats call; in both cases the
    process has ended. *)
Lemma running_gate_fails_without_inspect :
  ~ running_gate (dex runtime_inspect_fails) web1_exited /\
  ~ running_gate (dex runtime_inspect_fails) web1.
Proof.
  split; intros H.
  - destruct (H "web-1" eq_refl) as [_ Hn].
    destruct Hn as [Hnames _]; [ discriminate | ].
    vm_compute in Hnames. discriminate.
  - destruct (H "web-1" eq_refl) as [[_ Hcall] _].
    specialize (Hcall eq_refl). vm_compute in Hcall.
    destruct Hcall as [Hc | []]. discriminate.
Qed.

(** ** Block I/O aggregation *)




(** ** Failure of the listing call *)

(** Claim C9. When the container-listing call fails, the cycle logs the
    error and sends no metric; the process goes on; the only call made on
    the client is the listing itself, so no per-container work is started;
    and a following cycle sends what it would have sent had the failed
    cycle not taken place. *)
Theorem list_failure_empty_cycle (c : DockerCollector) (e : error) (p : Process) :
  ContainerList (cli c) = Err e ->
  Collect c p =
    Next tt {| ch := ch p;
               logged := logged p ++
                 [{| level := ErrorLevel;
                     message := ("can't list containers: " ++ e)%string |}];
               calls := calls p ++ [CallContainerList true] |} /\
  emitted (Collect c) = [] /\
  exited (Collect c p) = false /\
  (forall c',
     ch (final ((Collect c ;; Collect c') start)) = ch (final (Collect c' start)) /\
     exited ((Collect c ;; Collect c') start) = exited (Collect c' start)).
Proof.
  intros He.
  assert (E : forall p0, Collect c p0 =
    Next tt {| ch := ch p0;
               logged := logged p0 ++
                 [{| level := ErrorLevel;
                     message := ("can't list containers: " ++ e)%string |}];
               calls := calls p0 ++ [CallContainerList true] |}).
  { intros p0. unfold Collect. rewrite He. reflexivity. }
  split; [ apply E | ]. split; [ unfold emitted; rewrite E; reflexivity | ].
  split; [ rewrite E; reflexivity | ].
  intros c'. unfold bind. rewrite E.
  rewrite (appending_Collect c').
  destruct (Collect c' start) as [ [] q | code q ]; cbn [extend_step final exited];
    split; reflexivity.
Qed.

Lemma list_failure_empty_cycle_witness :
  ContainerList (cli (dex runtime_down)) = Err "Cannot connect to the Docker daemon" /\
  emitted (Collect (dex runtime_down)) = [] /\
  map metric_name (ch (final ((Collect (dex runtime_down) ;; Collect (dex runtimeA)) start))) =
    (lifecycle_names ++ [restarts_name] ++ resource_names)%list.
Proof.
  destruct (list_failure_empty_cycle (dex runtime_down)
              "Cannot connect to the Docker daemon" start eq_refl)
    as (_ & E & _ & H).
  split; [ reflexivity | ]. split; [ exact E | ].
  destruct (H (dex runtimeA)) as [-> _]. vm_compute. reflexivity.
Defined.

(** ** The scenarios of the specification *)

(** Scenario A: one running container, default pattern. *)
Example scenario_A :
  map view (emitted (Collect (dex runtimeA))) =
  [("dex_container_running", GaugeValue, F64.of_Z 1, ["web-1"]);
   ("dex_container_restarting", GaugeValue, F64.zero, ["web-1"]);
   ("dex_container_exited", GaugeValue, F64.zero, ["web-1"]);
   ("dex_container_restarts_total", CounterValue, F64.of_Z 2, ["web-1"]);
   ("dex_block_io_read_bytes_total", CounterValue, F64.of_Z 125, ["web-1"]);
   ("dex_block_io_write_bytes_total", CounterValue, F64.of_Z 50, ["web-1"]);
   ("dex_memory_usage_bytes", CounterValue, F64.of_Z 104857600, ["web-1"]);
   ("dex_memory_total_bytes", GaugeValue, F64.of_Z 209715200, ["web-1"]);
   ("dex_memory_utilization_percent", GaugeValue, F64.of_Z 50, ["web-1"]);
   ("dex_network_rx_bytes_total", CounterValue, F64.of_Z 1000, ["web-1"]);
   ("dex_network_tx_bytes_total", CounterValue, F64.of_Z 2000, ["web-1"]);
   ("dex_cpu_utilization_percent", GaugeValue, F64.of_Z 10, ["web-1"]);
   ("dex_cpu_utilization_seconds_total", CounterValue,
    F64.div (F64.of_Z 1) (F64.of_Z 2), ["web-1"]);
   ("dex_pids_current", CounterValue, F64.of_Z 7, ["web-1"])].
Proof. vm_compute. reflexivity. Qed.

(** Scenario B: an exited container that matches the pattern. *)
Example scenario_B :
  let c := {| cli := runtime_exited; containerRe := re_prefix "web-" |} in
  map metric_name (emitted (Collect c)) = (lifecycle_names ++ [restarts_name])%list /\
  calls (final (Collect c start)) =
    [CallContainerList true; CallContainerInspect "4f1c2a9e"].
Proof. split; vm_compute; reflexivity. Qed.

(** Scenario C: a container that the pattern rejects. *)
Example scenario_C :
  emitted (Collect {| cli := runtimeA; containerRe := re_prefix "db-" |}) = [].
Proof. reflexivity. Qed.

(** A pattern with a capture group labels the container by the group. *)
Example capture_group_label :
  resolve (re_prefix_rest "web-") ["/web-1"] = Some "1" /\
  Forall (fun m => labelValues m = ["1"])
    (emitted (Collect {| cli := runtimeA; containerRe := re_prefix_rest "web-" |})).
Proof. split; [ reflexivity | vm_compute; repeat constructor ]. Qed.

(** ** Cycles as sequences of units *)

Lemma forEach_cons_run (f : Summary -> Go unit) (x : Summary) (rest : list Summary) :
  (forall y, appending (f y)) ->
  forEach (x :: rest) f start =
  match f x start with
  | Next _ q => extend_step q (forEach rest f start)
  | Exit code q => Exit code q
  end.
Proof.
  intros Hf. cbn [forEach]. unfold bind.
  destruct (f x start) as [ [] q | code q ]; [ | reflexivity ].
  apply (appending_forEach rest f Hf).
Qed.

Lemma forEach_exited (f : Summary -> Go unit) (l : list Summary) :
  (forall y, appending (f y)) ->
  exited (forEach l f start) = existsb (fun x => exited (f x start)) l.
Proof.
  intros Hf. induction l as [ | x rest IH ]; [ reflexivity | ].
  rewrite (forEach_cons_run f x rest Hf). cbn [existsb].
  destruct (f x start) as [ [] q | code q ]; cbn [exited orb]; [ | reflexivity ].
  rewrite <- IH. destruct (forEach rest f start); reflexivity.
Qed.

Lemma forEach_all_done (f : Summary -> Go unit) (l : list Summary) :
  (forall y, appending (f y)) ->
  existsb (fun x => exited (f x start)) l = false ->
  exists q,
    forEach l f start = Next tt q /\
    ch q = flat_map (fun x => ch (final (f x start))) l /\
    logged q = flat_map (fun x => logged (final (f x start))) l /\
    calls q = flat_map (fun x => calls (final (f x start))) l.
Proof.
  intros Hf. induction l as [ | x rest IH ]; intros Hx.
  - exists start. repeat split.
  - cbn [existsb] in Hx. apply orb_false_iff in Hx as [Hx1 Hx2].
    destruct (IH Hx2) as (q & E & C & L & K).
    rewrite (forEach_cons_run f x rest Hf), E. cbn [flat_map].
    destruct (f x start) as [ [] q0 | code q0 ]; [ | discriminate ].
    cbn [extend_step final]. eexists. split; [ reflexivity | ].
    cbn [extend ch logged calls]. rewrite C, L, K. repeat split.
Qed.

Lemma forEach_sent (f : Summary -> Go unit) (l : list Summary) (m : Metric) :
  (forall y, appending (f y)) ->
  In m (ch (final (forEach l f start))) ->
  exists x, In x l /\ In m (ch (final (f x start))).
Proof.
  intros Hf. induction l as [ | x rest IH ]; [ intros [] | ].
  rewrite (forEach_cons_run f x rest Hf).
  destruct (f x start) as [ [] q | code q ] eqn:E.
  - destruct (forEach rest f start) as [ [] r | code r ]; cbn [extend_step final extend ch] in *;
      intros H; apply in_app_or in H as [H | H].
    + exists x. split; [ left; reflexivity | rewrite E; exact H ].
    + destruct (IH H) as (y & Hy & Hm). exists y. split; [ right; exact Hy | exact Hm ].
    + exists x. split; [ left; reflexivity | rewrite E; exact H ].
    + destruct (IH H) as (y & Hy & Hm). exists y. split; [ right; exact Hy | exact Hm ].
  - cbn [final]. intros H. exists x. split; [ left; reflexivity | rewrite E; exact H ].
Qed.

Lemma forEach_called (f : Summary -> Go unit) (l : list Summary) (k : Call) :
  (forall y, appending (f y)) ->
  In k (calls (final (forEach l f start))) ->
  exists x, In x l /\ In k (calls (final (f x start))).
Proof.
  intros Hf. induction l as [ | x rest IH ]; [ intros [] | ].
  rewrite (forEach_cons_run f x rest Hf).
  destruct (f x start) as [ [] q | code q ] eqn:E.
  - destruct (forEach rest f start) as [ [] r | code r ]; cbn [extend_step final extend calls] in *;
      intros H; apply in_app_or in H as [H | H].
    + exists x. split; [ left; reflexivity | rewrite E; exact H ].
    + destruct (IH H) as (y & Hy & Hm). exists y. split; [ right; exact Hy | exact Hm ].
    + exists x. split; [ left; reflexivity | rewrite E; exact H ].
    + destruct (IH H) as (y & Hy & Hm). exists y. split; [ right; exact Hy | exact Hm ].
  - cbn [final]. intros H. exists x. split; [ left; reflexivity | rewrite E; exact H ].
Qed.

Lemma forEach_calls_length (f : Summary -> Go unit) (l : list Summary) (n : nat) :
  (forall y, appending (f y)) ->
  (forall y, (length (calls (final (f y start))) <= n)%nat) ->
  (length (calls (final (forEach l f start))) <= n * length l)%nat.
Proof.
  intros Hf Hn. induction l as [ | x rest IH ]; [ cbn; lia | ].
  rewrite (forEach_cons_run f x rest Hf). specialize (Hn x).
  destruct (f x start) as [ [] q | code q ]; cbn [final] in *.
  - destruct (forEach rest f start) as [ [] r | code r ];
      cbn [extend_step final extend calls length] in *;
      rewrite length_app; lia.
  - cbn [length]. lia.
Qed.

(** ** One unit, every path *)

Ltac unit_paths c cont :=
  unfold processContainer; fold (normalized cont);
  destruct (FindStringSubmatch (containerRe c) (normalized cont))
    as [ | whole groups ] eqn:Hmatch;
  [ | change (length (whole :: groups) =? 0)%nat with false; cbv iota;
      destruct (ContainerInspect (cli c) (ID cont)) as [ inspect | e ] eqn:Hinspect;
      [ destruct (State cont =? "running")%string eqn:Hstate;
        [ destruct (ContainerStats (cli c) (ID cont)) as [ body | e ] eqn:Hstats;
          [ unfold blockIoMetrics;
            destruct (decodeErr body) as [ e1 | ] eqn:Hdecode,
                     (closeErr body) as [ e2 | ] eqn:Hclose;
            destruct (blockIoTotals _) as [ readTotal writeTotal ] | ]
        | ]
      | ] ].

Lemma unit_signatures (c : DockerCollector) (cont : Summary) :
  exists n, map signature (emitted (processContainer c cont)) = firstn n catalog.
Proof.
  unfold emitted. unit_paths c cont.
  - exists 0%nat. reflexivity.
  - exists 14%nat. reflexivity.
  - exists 14%nat. reflexivity.
  - exists 14%nat. reflexivity.
  - exists 14%nat. reflexivity.
  - exists 4%nat. reflexivity.
  - exists 4%nat. reflexivity.
  - exists 3%nat. reflexivity.
Qed.

Lemma NoDup_firstn {A} (n : nat) (l : list A) : List.NoDup l -> List.NoDup (firstn n l).
Proof.
  intros H. rewrite <- (firstn_skipn n l) in H.
  apply NoDup_app_remove_r in H. exact H.
Qed.

Lemma catalog_names :
  map (fun s => fqName (fst s)) catalog =
  (lifecycle_names ++ [restarts_name] ++ resource_names)%list.
Proof. reflexivity. Qed.

Lemma catalog_names_NoDup : List.NoDup (map (fun s => fqName (fst s)) catalog).
Proof.
  rewrite catalog_names.
  cbv [lifecycle_names restarts_name resource_names app].
  repeat (constructor; [ cbn [In]; intuition discriminate | ]).
  constructor.
Qed.

Lemma catalog_labels :
  Forall (fun s => variableLabels (fst s) = labelCname) catalog.
Proof. repeat constructor. Qed.

Lemma signature_by_name {A B} (f : A -> B) (l : list A) (x y : A) :
  List.NoDup (map f l) -> In x l -> In y l -> f x = f y -> x = y.
Proof.
  induction l as [ | a l IH ]; [ intros _ [] | ].
  cbn [map]. intros Hnd Hx Hy E. inversion Hnd as [ | ? ? Hnotin Hnd' ]; subst.
  destruct Hx as [ <- | Hx ], Hy as [ <- | Hy ].
  - reflexivity.
  - exfalso. apply Hnotin. rewrite E. apply in_map. exact Hy.
  - exfalso. apply Hnotin. rewrite <- E. apply in_map. exact Hx.
  - apply IH; assumption.
Qed.

Lemma unit_in_catalog (c : DockerCollector) (cont : Summary) (m : Metric) :
  In m (emitted (processContainer c cont)) -> In (signature m) catalog.
Proof.
  intros H. destruct (unit_signatures c cont) as [n E].
  apply (in_map signature) in H. rewrite E in H.
  rewrite <- (firstn_skipn n catalog). apply in_or_app. left. exact H.
Qed.

Lemma unit_one_label (c : DockerCollector) (cont : Summary) (m : Metric) :
  In m (emitted (processContainer c cont)) -> length (labelValues m) = 1%nat.
Proof.
  unfold emitted.
  destruct (FindStringSubmatch (containerRe c) (normalized cont))
    as [ | whole groups ] eqn:Hm.
  - rewrite (unit_no_match c cont Hm). intros [].
  - destruct (unit_labels c cont whole groups Hm) as [_ F].
    rewrite List.Forall_forall in F. intros H. rewrite (F m H). reflexivity.
Qed.

(** ** Lifecycle gauges *)

(** X1. For every container that passes the name filter, the first three
    metrics of its unit are the lifecycle gauges, and their values are
    (1, 0, 0) when the state is ["running"], (0, 1, 0) when it is
    ["restarting"], (0, 0, 1) when it is ["exited"], and (0, 0, 0) for
    every other state string; the comparison is exact, so at most one
    gauge is 1. *)
Theorem lifecycle_gauges_exclusive (c : DockerCollector) (cont : Summary)
    (label : string) :
  resolve (containerRe c) (Names cont) = Some label ->
  exists running restarting exited_,
    firstn 3 (map view (emitted (processContainer c cont))) =
      [("dex_container_running", GaugeValue, running, [label]);
       ("dex_container_restarting", GaugeValue, restarting, [label]);
       ("dex_container_exited", GaugeValue, exited_, [label])] /\
    (State cont = "running" ->
     (running, restarting, exited_) = (F64.one, F64.zero, F64.zero)) /\
    (State cont = "restarting" ->
     (running, restarting, exited_) = (F64.zero, F64.one, F64.zero)) /\
    (State cont = "exited" ->
     (running, restarting, exited_) = (F64.zero, F64.zero, F64.one)) /\
    (State cont <> "running" -> State cont <> "restarting" ->
     State cont <> "exited" ->
     (running, restarting, exited_) = (F64.zero, F64.zero, F64.zero)).
Proof.
  intros Hr. pose proof (resolve_cases c cont) as Hc. rewrite Hr in Hc.
  destruct Hc as (whole & groups & Hm & Hl).
  destruct (unit_labels c cont whole groups Hm) as [V _]. rewrite Hl in V.
  exists (flag (State cont =? "running")%string),
         (flag (State cont =? "restarting")%string),
         (flag (State cont =? "exited")%string).
  split; [ exact V | ].
  repeat split.
  - intros ->. reflexivity.
  - intros ->. reflexivity.
  - intros ->. reflexivity.
  - intros H1 H2 H3. apply String.eqb_neq in H1, H2, H3.
    rewrite H1, H2, H3. reflexivity.
Qed.

Lemma lifecycle_gauges_exclusive_witness :
  resolve re_any (Names web1_exited) = Some "web-1" /\
  firstn 3 (map view (emitted (processContainer (dex runtime_exited) web1_exited))) =
    [("dex_container_running", GaugeValue, F64.zero, ["web-1"]);
     ("dex_container_restarting", GaugeValue, F64.zero, ["web-1"]);
     ("dex_container_exited", GaugeValue, F64.one, ["web-1"])].
Proof.
  split; [ reflexivity | ].
  destruct (lifecycle_gauges_exclusive (dex runtime_exited) web1_exited "web-1" eq_refl)
    as (r & s & x & V & _ & _ & He & _).
  specialize (He eq_refl). injection He as -> -> ->. exact V.
Defined.

(** ** Failure of the stats call *)

(** X2. For a filtered running container whose inspect call succeeds, a
    failure of the stats call ends the process: the three lifecycle gauges
    and the restart counter have been sent, the error is logged at fatal
    level, the exit status is 1 and no resource metric is sent. *)
Theorem stats_failure_is_fatal (c : DockerCollector) (cont : Summary)
    (label : string) (inspect : InspectResponse) (e : error) :
  resolve (containerRe c) (Names cont) = Some label ->
  ContainerInspect (cli c) (ID cont) = Ok inspect ->
  State cont = "running" ->
  ContainerStats (cli c) (ID cont) = Err e ->
  exists q,
    processContainer c cont start = Exit 1 q /\
    map view (ch q) =
      (lifecycle_views "running" label ++ [restarts_view inspect label])%list /\
    List.filter is_resource_metric (ch q) = [] /\
    logged q = [{| level := FatalLevel; message := e |}] /\
    calls q = [CallContainerInspect (ID cont); CallContainerStats (ID cont) false].
Proof.
  intros Hr Hi Hs He. pose proof (resolve_cases c cont) as Hc. rewrite Hr in Hc.
  destruct Hc as (whole & groups & Hm & Hl).
  assert (Hrun : (State cont =? "running")%string = true)
    by (apply String.eqb_eq; exact Hs).
  destruct (unit_stats_error c cont whole groups Hm inspect e Hi Hrun He)
    as (q & E & V & L & K).
  rewrite Hl, Hs in V. exists q. repeat split; try assumption.
  apply (map_eq_nil view). unfold is_resource_metric.
  rewrite (filter_view (fun n => existsb (String.eqb n) resource_names)), V.
  reflexivity.
Qed.

Lemma stats_failure_is_fatal_witness :
  resolve re_any (Names web1) = Some "web-1" /\
  ContainerInspect runtime_stats_fails (ID web1) = Ok {| RestartCount := 2 |} /\
  State web1 = "running" /\
  ContainerStats runtime_stats_fails (ID web1) = Err "context deadline exceeded" /\
  exists q,
    processContainer (dex runtime_stats_fails) web1 start = Exit 1 q /\
    map metric_name (ch q) = (lifecycle_names ++ [restarts_name])%list /\
    logged q = [{| level := FatalLevel; message := "context deadline exceeded" |}].
Proof.
  repeat (split; [ reflexivity | ]).
  destruct (stats_failure_is_fatal (dex runtime_stats_fails) web1 "web-1"
              {| RestartCount := 2 |} "context deadline exceeded"
              eq_refl eq_refl eq_refl eq_refl) as (q & E & V & _ & L & _).
  exists q. split; [ exact E | ]. split; [ | exact L ].
  rewrite metric_name_view, V. reflexivity.
Defined.

(** ** Errors of the stats body *)

(** X3. For a filtered running container whose inspect and stats calls
    succeed, an error of [Decode] or of [Body.Close] is only logged, at
    error level: the unit finishes, and the metrics it sends depend on the
    body through the decoded value alone. *)
Theorem body_errors_only_logged (c : DockerCollector) (cont : Summary)
    (label : string) (inspect : InspectResponse) (body : StatsBody) :
  resolve (containerRe c) (Names cont) = Some label ->
  ContainerInspect (cli c) (ID cont) = Ok inspect ->
  State cont = "running" ->
  ContainerStats (cli c) (ID cont) = Ok body ->
  exists q,
    processContainer c cont start = Next tt q /\
    map view (ch q) =
      (lifecycle_views "running" label ++ [restarts_view inspect label] ++
       map view (emitted (resourceMetrics (decoded body) label)))%list /\
    logged q =
      (error_entry "can't read api stats: " (decodeErr body) ++
       error_entry "can't close body: " (closeErr body))%list /\
    Forall (fun entry => level entry = ErrorLevel) (logged q) /\
    (decodeErr body = None -> closeErr body = None -> logged q = []).
Proof.
  intros Hr Hi Hs Hb. pose proof (resolve_cases c cont) as Hc. rewrite Hr in Hc.
  destruct Hc as (whole & groups & Hm & Hl).
  assert (Hrun : (State cont =? "running")%string = true)
    by (apply String.eqb_eq; exact Hs).
  destruct (unit_running c cont whole groups Hm inspect body Hi Hrun Hb)
    as (q & E & V & L & _).
  rewrite Hl, Hs in V. exists q.
  split; [ exact E | ]. split; [ exact V | ]. split; [ exact L | ].
  rewrite L. split.
  - destruct (decodeErr body), (closeErr body); repeat constructor.
  - intros -> ->. reflexivity.
Qed.

Lemma body_errors_only_logged_witness :
  resolve re_any (Names web1) = Some "web-1" /\
  ContainerInspect runtime_unclosable (ID web1) = Ok {| RestartCount := 2 |} /\
  State web1 = "running" /\
  ContainerStats runtime_unclosable (ID web1) = Ok body_unclosable /\
  exists q,
    processContainer (dex runtime_unclosable) web1 start = Next tt q /\
    map view (ch q) = map view (emitted (processContainer (dex runtimeA) web1)) /\
    logged q =
      [{| level := ErrorLevel;
          message := "can't close body: use of closed network connection" |}].
Proof.
  repeat (split; [ reflexivity | ]).
  destruct (body_errors_only_logged (dex runtime_unclosable) web1 "web-1"
              {| RestartCount := 2 |} body_unclosable
              eq_refl eq_refl eq_refl eq_refl) as (q & E & V & L & _).
  exists q. split; [ exact E | ]. split; [ | exact L ].
  rewrite V. vm_compute. reflexivity.
Defined.

(** ** When a unit ends the process *)

Lemma filtered_true (c : DockerCollector) (cont : Summary) :
  filtered c cont = true <->
  exists whole groups,
    FindStringSubmatch (containerRe c) (normalized cont) = whole :: groups.
Proof.
  unfold filtered.
  destruct (FindStringSubmatch (containerRe c) (normalized cont)) as [ | w g ].
  - split; [ discriminate | intros (? & ? & H); discriminate ].
  - split; [ intros _; eauto | reflexivity ].
Qed.

Lemma unit_exit (c : DockerCollector) (cont : Summary) :
  (exited (processContainer c cont start) = true <->
   filtered c cont = true /\
   ((exists e, ContainerInspect (cli c) (ID cont) = Err e) \/
    (State cont = "running" /\ exists e, ContainerStats (cli c) (ID cont) = Err e))) /\
  (forall code q, processContainer c cont start = Exit code q -> code = 1).
Proof.
  unfold filtered. unit_paths c cont; cbn [length Nat.eqb negb].
  - split; [ | discriminate ]. split; [ discriminate | intros [H _]; discriminate ].
  - split; [ | discriminate ]. split; [ discriminate | ].
    intros [_ [[e H] | [_ [e H]]]]; discriminate.
  - split; [ | discriminate ]. split; [ discriminate | ].
    intros [_ [[e H] | [_ [e H]]]]; discriminate.
  - split; [ | discriminate ]. split; [ discriminate | ].
    intros [_ [[e H] | [_ [e H]]]]; discriminate.
  - split; [ | discriminate ]. split; [ discriminate | ].
    intros [_ [[e H] | [_ [e H]]]]; discriminate.
  - apply String.eqb_eq in Hstate. split.
    + split; [ intros _ | reflexivity ].
      split; [ reflexivity | right; split; [ exact Hstate | eauto ] ].
    + intros code q H. injection H as <- _. reflexivity.
  - apply String.eqb_neq in Hstate. split; [ | discriminate ].
    split; [ discriminate | ].
    intros [_ [[e H] | [H _]]]; [ discriminate | contradiction ].
  - split.
    + split; [ intros _ | reflexivity ]. split; [ reflexivity | left; eauto ].
    + intros code q H. injection H as <- _. reflexivity.
Qed.

Lemma forEach_exit_code (f : Summary -> Go unit) (l : list Summary) (code : Z)
    (q : Process) :
  (forall y, appending (f y)) ->
  forEach l f start = Exit code q ->
  exists x q', In x l /\ f x start = Exit code q'.
Proof.
  intros Hf. revert q. induction l as [ | x rest IH ]; intros q; [ discriminate | ].
  rewrite (forEach_cons_run f x rest Hf).
  destruct (f x start) as [ [] q0 | code0 q0 ] eqn:E.
  - destruct (forEach rest f start) as [ [] r | code1 r ] eqn:E1;
      cbn [extend_step]; [ discriminate | ].
    intros H. injection H as <- _.
    destruct (IH r eq_refl) as (y & q' & Hy & Ey).
    exists y, q'. split; [ right; exact Hy | exact Ey ].
  - intros H. injection H as <- _. exists x, q0. split; [ left; reflexivity | exact E ].
Qed.

Lemma Collect_listed (c : DockerCollector) (containers : list Summary) :
  ContainerList (cli c) = Ok containers ->
  Collect c start =
  extend_step {| ch := []; logged := []; calls := [CallContainerList true] |}
              (forEach containers (processContainer c) start).
Proof.
  intros Hl. unfold Collect. rewrite Hl. unfold bind, record_call.
  cbn [ch logged calls start app].
  apply (appending_forEach containers (processContainer c)
           (appending_processContainer c)).
Qed.

(** X4. When the listing succeeds, the cycle ends the process if and only
    if some listed container passes the name filter and either its inspect
    call fails or it is running and its stats call fails; the exit status
    is then 1. Errors of decoding or closing the stats body never end the
    process. *)
Theorem cycle_exit (c : DockerCollector) (containers : list Summary) :
  ContainerList (cli c) = Ok containers ->
  (exited (Collect c start) = true <->
   exists cont,
     In cont containers /\ filtered c cont = true /\
     ((exists e, ContainerInspect (cli c) (ID cont) = Err e) \/
      (State cont = "running" /\
       exists e, ContainerStats (cli c) (ID cont) = Err e))) /\
  (forall code q, Collect c start = Exit code q -> code = 1).
Proof.
  intros Hl. rewrite (Collect_listed c containers Hl).
  pose proof (appending_processContainer c) as Hf.
  split.
  - replace (exited (extend_step _ (forEach containers (processContainer c) start)))
      with (exited (forEach containers (processContainer c) start))
      by (destruct (forEach containers (processContainer c) start); reflexivity).
    rewrite (forEach_exited _ _ Hf), existsb_exists.
    split.
    + intros (cont & Hin & Hx). exists cont. split; [ exact Hin | ].
      apply (unit_exit c cont). exact Hx.
    + intros (cont & Hin & Hx). exists cont. split; [ exact Hin | ].
      apply (unit_exit c cont). exact Hx.
  - intros code q H.
    destruct (forEach containers (processContainer c) start) as [ [] r | code0 r ] eqn:E;
      cbn [extend_step] in H; [ discriminate | ].
    injection H as <- _.
    destruct (forEach_exit_code _ _ _ _ Hf E) as (x & q' & _ & Ex).
    apply (proj2 (unit_exit c x) _ _ Ex).
Qed.

Lemma cycle_exit_witness :
  ContainerList (cli (dex runtime_stats_fails)) = Ok [web1] /\
  exited (Collect (dex runtime_stats_fails) start) = true /\
  exited (Collect (dex runtime_unclosable) start) = false.
Proof.
  split; [ reflexivity | ]. split.
  - apply (cycle_exit (dex runtime_stats_fails) [web1] eq_refl).
    exists web1. split; [ left; reflexivity | ]. split; [ reflexivity | ].
    right. split; [ reflexivity | ]. exists "context deadline exceeded". reflexivity.
  - reflexivity.
Defined.

(** ** The metrics and calls of a cycle *)

Lemma Collect_all_done (c : DockerCollector) (containers : list Summary) :
  ContainerList (cli c) = Ok containers ->
  (forall cont, In cont containers -> exited (processContainer c cont start) = false) ->
  ch (final (Collect c start)) =
  flat_map (fun cont => emitted (processContainer c cont)) containers.
Proof.
  intros Hl Hx. rewrite (Collect_listed c containers Hl).
  assert (Hn : existsb (fun x => exited (processContainer c x start)) containers = false).
  { apply not_true_is_false. intros H. apply existsb_exists in H as (x & Hin & Hxx).
    rewrite (Hx x Hin) in Hxx. discriminate. }
  destruct (forEach_all_done _ containers (appending_processContainer c) Hn)
    as (q & E & C & _).
  rewrite E. cbn [extend_step final extend ch app]. exact C.
Qed.

(** X5. When the listing succeeds and no unit ends the process, the cycle
    finishes and sends, in some order, exactly the metrics of its units,
    each as many times as the units send it; likewise the log holds the
    units' entries, and the calls are the listing (with [All] set) first,
    followed in some order by the calls of the units. *)
Theorem cycle_is_its_units (c : DockerCollector) (containers : list Summary) :
  ContainerList (cli c) = Ok containers ->
  (forall cont, In cont containers -> exited (processContainer c cont start) = false) ->
  exists q rest,
    Collect c start = Next tt q /\
    Permutation (ch q)
      (flat_map (fun cont => emitted (processContainer c cont)) containers) /\
    Permutation (logged q)
      (flat_map (fun cont => logged (final (processContainer c cont start))) containers) /\
    calls q = CallContainerList true :: rest /\
    Permutation rest
      (flat_map (fun cont => calls (final (processContainer c cont start))) containers).
Proof.
  intros Hl Hx. rewrite (Collect_listed c containers Hl).
  assert (Hn : existsb (fun x => exited (processContainer c x start)) containers = false).
  { apply not_true_is_false. intros H. apply existsb_exists in H as (x & Hin & Hxx).
    rewrite (Hx x Hin) in Hxx. discriminate. }
  destruct (forEach_all_done _ containers (appending_processContainer c) Hn)
    as (q & E & C & L & K).
  rewrite E. cbn [extend_step]. eexists. exists (calls q).
  split; [ reflexivity | ].
  cbn [extend ch logged calls app]. rewrite C, L, K.
  repeat split; apply Permutation_refl.
Qed.

Lemma cycle_is_its_units_witness :
  ContainerList (cli (dex runtimeA)) = Ok [web1] /\
  exists q,
    Collect (dex runtimeA) start = Next tt q /\
    Permutation (ch q) (emitted (processContainer (dex runtimeA) web1)) /\
    length (calls q) = 3%nat.
Proof.
  split; [ reflexivity | ].
  destruct (cycle_is_its_units (dex runtimeA) [web1] eq_refl)
    as (q & rest & E & C & _ & K & KP).
  - intros cont [ <- | [] ]. reflexivity.
  - exists q. split; [ exact E | ]. split.
    + cbn [flat_map] in C. rewrite app_nil_r in C. exact C.
    + rewrite K. cbn [length]. rewrite (Permutation_length KP). reflexivity.
Defined.

(** X6. The metric names a unit sends are an initial segment, of length
    0, 3, 4 or 14, of one fixed sequence: the three lifecycle gauges, the
    restart counter, then block I/O, memory, network, CPU and pids; no name
    is sent twice by one unit, and a lifecycle gauge always precedes the
    resource metrics. *)
Theorem unit_metric_sequence (c : DockerCollector) (cont : Summary) :
  exists n,
    In n [0; 3; 4; 14]%nat /\
    map metric_name (emitted (processContainer c cont)) =
      firstn n (lifecycle_names ++ [restarts_name] ++ resource_names) /\
    List.NoDup (map metric_name (emitted (processContainer c cont))).
Proof.
  assert (H : exists n,
    In n [0; 3; 4; 14]%nat /\
    map metric_name (emitted (processContainer c cont)) =
      firstn n (lifecycle_names ++ [restarts_name] ++ resource_names)).
  { unfold emitted. unit_paths c cont.
    - exists 0%nat. split; [ cbn; tauto | reflexivity ].
    - exists 14%nat. split; [ cbn; tauto | reflexivity ].
    - exists 14%nat. split; [ cbn; tauto | reflexivity ].
    - exists 14%nat. split; [ cbn; tauto | reflexivity ].
    - exists 14%nat. split; [ cbn; tauto | reflexivity ].
    - exists 4%nat. split; [ cbn; tauto | reflexivity ].
    - exists 4%nat. split; [ cbn; tauto | reflexivity ].
    - exists 3%nat. split; [ cbn; tauto | reflexivity ]. }
  destruct H as (n & Hn & E). exists n. split; [ exact Hn | ]. split; [ exact E | ].
  rewrite E, <- catalog_names. apply NoDup_firstn, catalog_names_NoDup.
Qed.

(** X7. Containers that the pattern rejects are skipped entirely: removing
    them from the listing changes nothing of what the cycle does to the
    channel, the log or the runtime. *)
Theorem unmatched_containers_are_skipped (c : DockerCollector)
    (containers : list Summary) (p : Process) :
  forEach containers (processContainer c) p =
  forEach (List.filter (filtered c) containers) (processContainer c) p.
Proof.
  revert p. induction containers as [ | x rest IH ]; intros p; [ reflexivity | ].
  cbn [List.filter]. unfold filtered at 1.
  destruct (FindStringSubmatch (containerRe c) (normalized x)) as [ | w g ] eqn:Hm;
    cbn [length Nat.eqb negb].
  - cbn [forEach]. rewrite (unit_no_match c x Hm). unfold bind, ret. apply IH.
  - cbn [forEach]. unfold bind.
    destruct (processContainer c x p) as [ [] q | code q ]; [ apply IH | reflexivity ].
Qed.

Lemma unit_calls (c : DockerCollector) (cont : Summary) :
  (length (calls (final (processContainer c cont start))) <= 2)%nat /\
  forall k, In k (calls (final (processContainer c cont start))) ->
            filtered c cont = true /\ is_unit_call cont k.
Proof.
  unfold filtered, is_unit_call.
  destruct (FindStringSubmatch (containerRe c) (normalized cont))
    as [ | whole groups ] eqn:Hm.
  - rewrite (unit_no_match c cont Hm). split; [ cbn; lia | intros k [] ].
  - cbn [length Nat.eqb negb].
    assert (Hq : exists q,
      final (processContainer c cont start) = q /\
      (calls q = [CallContainerInspect (ID cont)] \/
       calls q = [CallContainerInspect (ID cont); CallContainerStats (ID cont) false])).
    { destruct (ContainerInspect (cli c) (ID cont)) as [ inspect | e ] eqn:Hi.
      - destruct (State cont =? "running")%string eqn:Hs.
        + destruct (ContainerStats (cli c) (ID cont)) as [ body | e ] eqn:Hb.
          * destruct (unit_running c cont whole groups Hm inspect body Hi Hs Hb)
              as (q & E & _ & _ & K).
            exists q. rewrite E. split; [ reflexivity | right; exact K ].
          * destruct (unit_stats_error c cont whole groups Hm inspect e Hi Hs Hb)
              as (q & E & _ & _ & K).
            exists q. rewrite E. split; [ reflexivity | right; exact K ].
        + destruct (unit_not_running c cont whole groups Hm inspect Hi Hs)
            as (q & E & _ & _ & K).
          exists q. rewrite E. split; [ reflexivity | left; exact K ].
      - destruct (unit_inspect_error c cont whole groups Hm e Hi) as (q & E & _ & _ & K).
        exists q. rewrite E. split; [ reflexivity | left; exact K ]. }
    destruct Hq as (q & -> & [K | K]); rewrite K;
      (split; [ cbn; lia | cbn [In]; intros k H; intuition auto ]).
Qed.

(** X8. When the listing succeeds, the cycle makes at most one listing call
    and two calls per listed container: the first call is the listing with
    [All] set, and every other call is the inspect call or the
    non-streaming stats call of a listed container that passes the name
    filter. *)
Theorem cycle_calls (c : DockerCollector) (containers : list Summary) :
  ContainerList (cli c) = Ok containers ->
  exists rest,
    calls (final (Collect c start)) = CallContainerList true :: rest /\
    (length rest <= 2 * length containers)%nat /\
    forall k, In k rest ->
      exists cont, In cont containers /\ filtered c cont = true /\ is_unit_call cont k.
Proof.
  intros Hl. rewrite (Collect_listed c containers Hl).
  pose proof (appending_processContainer c) as Hf.
  exists (calls (final (forEach containers (processContainer c) start))).
  split; [ destruct (forEach containers (processContainer c) start); reflexivity | ].
  split.
  - apply (forEach_calls_length _ _ 2%nat Hf). intros y. apply unit_calls.
  - intros k Hk. destruct (forEach_called _ _ _ Hf Hk) as (x & Hin & Hkx).
    exists x. split; [ exact Hin | ]. apply (unit_calls c x). exact Hkx.
Qed.

Lemma cycle_calls_witness :
  ContainerList (cli (dex runtime_exited)) = Ok [web1_exited] /\
  calls (final (Collect (dex runtime_exited) start)) =
    [CallContainerList true; CallContainerInspect "4f1c2a9e"].
Proof.
  split; [ reflexivity | ].
  destruct (cycle_calls (dex runtime_exited) [web1_exited] eq_refl) as (rest & E & _).
  rewrite E. f_equal. injection E as <-. reflexivity.
Defined.

(** X9. In one cycle, two metrics of the same name have the same
    description (name, help, label names) and the same kind; every metric
    has the single variable label [container_name] and exactly one label
    value. *)
Theorem cycle_metrics_consistent (c : DockerCollector) (m1 m2 : Metric) :
  In m1 (emitted (Collect c)) ->
  In m2 (emitted (Collect c)) ->
  (metric_name m1 = metric_name m2 ->
   desc m1 = desc m2 /\ valueType m1 = valueType m2) /\
  variableLabels (desc m1) = ["container_name"] /\
  length (labelValues m1) = 1%nat.
Proof.
  assert (Hunit : forall m, In m (emitted (Collect c)) ->
    exists cont, In m (emitted (processContainer c cont))).
  { intros m Hm. unfold emitted in Hm.
    destruct (ContainerList (cli c)) as [ containers | e ] eqn:Hl.
    - rewrite (Collect_listed c containers Hl) in Hm.
      assert (Hm' : In m (ch (final (forEach containers (processContainer c) start))))
        by (destruct (forEach containers (processContainer c) start); exact Hm).
      destruct (forEach_sent _ _ _ (appending_processContainer c) Hm')
        as (x & _ & Hx).
      exists x. exact Hx.
    - unfold Collect in Hm. rewrite Hl in Hm. destruct Hm. }
  intros H1 H2.
  destruct (Hunit m1 H1) as (x1 & Hx1). destruct (Hunit m2 H2) as (x2 & Hx2).
  pose proof (unit_in_catalog c x1 m1 Hx1) as C1.
  pose proof (unit_in_catalog c x2 m2 Hx2) as C2.
  split; [ | split ].
  - intros E.
    pose proof (signature_by_name (fun s => fqName (fst s)) catalog
                  (signature m1) (signature m2) catalog_names_NoDup C1 C2 E) as S.
    injection S as -> ->. split; reflexivity.
  - pose proof catalog_labels as L. rewrite List.Forall_forall in L.
    apply (L _ C1).
  - apply (unit_one_label c x1 m1 Hx1).
Qed.

Lemma cycle_metrics_consistent_witness :
  exists m,
    In m (emitted (Collect (dex runtimeA))) /\
    variableLabels (desc m) = ["container_name"] /\
    labelValues m = ["web-1"].
Proof.
  set (m := MustNewConstMetric
              (NewDesc "dex_container_running"
                       "1 if docker container is running, 0 otherwise" labelCname)
              GaugeValue F64.one "web-1").
  assert (Hin : In m (emitted (Collect (dex runtimeA)))) by (left; reflexivity).
  exists m. split; [ exact Hin | ].
  destruct (cycle_metrics_consistent (dex runtimeA) m m Hin Hin) as (_ & L & _).
  split; [ exact L | reflexivity ].
Defined.

(** ** Network metrics *)

(** X10. [networkMetrics] reads the interface ["eth0"] and nothing else:
    two snapshots whose ["eth0"] entries agree yield the same two metrics
    whatever their other interfaces carry, and when ["eth0"] is absent
    both counters are 0. *)
Theorem network_reads_eth0_only (s : StatsResponse) (cName : string) :
  (forall s',
     Networks s' !! "eth0" = Networks s !! "eth0" ->
     emitted (networkMetrics s' cName) = emitted (networkMetrics s cName)) /\
  (forall k n,
     k <> "eth0" ->
     index (<[k := n]> (Networks s)) "eth0" zeroNetworkStats =
     index (Networks s) "eth0" zeroNetworkStats) /\
  (Networks s !! "eth0" = None ->
   map view (emitted (networkMetrics s cName)) =
     [("dex_network_rx_bytes_total", CounterValue, F64.zero, [cName]);
      ("dex_network_tx_bytes_total", CounterValue, F64.zero, [cName])]) /\
  (forall n,
     Networks s !! "eth0" = Some n ->
     map view (emitted (networkMetrics s cName)) =
       [("dex_network_rx_bytes_total", CounterValue, F64.of_Z (RxBytes n), [cName]);
        ("dex_network_tx_bytes_total", CounterValue, F64.of_Z (TxBytes n), [cName])]).
Proof.
  split; [ | split; [ | split ] ].
  - intros s' H. unfold emitted, networkMetrics, index. rewrite H. reflexivity.
  - intros k n Hk. unfold index. rewrite lookup_insert_ne by exact Hk. reflexivity.
  - intros H. unfold emitted, networkMetrics, index. rewrite H. reflexivity.
  - intros n H. unfold emitted, networkMetrics, index. rewrite H. reflexivity.
Qed.

(** ** Block I/O totals compose *)

Lemma op_sum_app (op : string) (l1 l2 : list BlkioStatEntry) :
  op_sum op (l1 ++ l2) = op_sum op l1 + op_sum op l2.
Proof.
  induction l1 as [ | b l1 IH ]; cbn [app op_sum]; [ reflexivity | ].
  rewrite IH. lia.
Qed.

Lemma wrap_add (a b : Z) : U64.wrap (a + b) = U64.add (U64.wrap a) (U64.wrap b).
Proof. unfold U64.add, U64.wrap. apply Zplus_mod. Qed.

(** X11. The totals of two record sequences put end to end are the sums,
    modulo [2^64], of the totals of each; the totals of no record are
    (0, 0); and both totals are always within [uint64]. *)
Theorem blockIoTotals_compose (l1 l2 : list BlkioStatEntry) :
  blockIoTotals (l1 ++ l2) =
    (U64.add (fst (blockIoTotals l1)) (fst (blockIoTotals l2)),
     U64.add (snd (blockIoTotals l1)) (snd (blockIoTotals l2))) /\
  blockIoTotals [] = (0, 0) /\
  U64.in_range (fst (blockIoTotals l1)) /\
  U64.in_range (snd (blockIoTotals l1)).
Proof.
  rewrite !blockIoTotals_sums. cbn [fst snd].
  rewrite !op_sum_app, !wrap_add.
  split; [ reflexivity | ]. split; [ reflexivity | ].
  split; apply wrap_in_range.
Qed.

(** ** The values of the resource metrics *)

Lemma of_Z_sign (z : Z) : U64.in_range z -> F64.has_sign false (F64.of_Z z) = true.
Proof.
  intros H. destruct (of_Z_cases z H) as [[-> E] | [_ (m & e & E)]];
    rewrite E; reflexivity.
Qed.

Lemma seconds_sign (z : Z) :
  U64.in_range z -> F64.has_sign false (F64.div (F64.of_Z z) F64.c1e9) = true.
Proof.
  intros H. destruct (of_Z_cases z H) as [[-> E] | [_ (m & e & E)]]; rewrite E.
  - reflexivity.
  - change F64.c1e9 with (S754_finite false 8388608000000000 (-23)).
    apply div_finite_sign.
Qed.

Lemma index_network_in_range (s : StatsResponse) :
  snapshot_in_range s ->
  U64.in_range (RxBytes (index (Networks s) "eth0" zeroNetworkStats)) /\
  U64.in_range (TxBytes (index (Networks s) "eth0" zeroNetworkStats)).
Proof.
  intros (_ & _ & _ & Hn & _). unfold index.
  destruct (Networks s !! "eth0") as [ n | ] eqn:E; cbn [default].
  - apply (Hn _ _ E).
  - unfold U64.in_range, U64.modulus. cbn. lia.
Qed.

(** X12. For a snapshot whose [uint64] fields are in range, every resource
    metric other than the two utilisation percentages is a number that is
    not negative, and so is each percentage when its denominator is not
    zero: with [systemDelta] and the memory limit nonzero, no resource
    metric is [NaN] or negative. *)
Theorem resource_values_are_numbers (s : StatsResponse) (cName : string) :
  snapshot_in_range s ->
  Forall (fun m =>
            F64.has_sign false (value m) = true \/
            (metric_name m = "dex_cpu_utilization_percent" /\ systemDelta s = 0) \/
            (metric_name m = "dex_memory_utilization_percent" /\
             Limit (MemoryStats_ s) = 0))
         (emitted (resourceMetrics s cName)).
Proof.
  intros Hr. pose proof Hr as (Hc & Hp & Hm & Hn & Hpid).
  destruct (index_network_in_range s Hr) as [Hrx Htx].
  assert (Hin : forall z, 0 <= U64.wrap z < 2 ^ 64) by (intros z; apply wrap_in_range).
  pose proof (blockIoTotals_sums (IoServiceBytesRecursive (BlkioStats_ s))) as Hb.
  unfold emitted, resourceMetrics, blockIoMetrics.
  destruct (blockIoTotals _) as [readTotal writeTotal]. injection Hb as -> ->.
  cbn [final bind send start ch app].
  repeat (apply List.Forall_cons; [ cbn [value metric_name MustNewConstMetric desc fqName NewDesc] | ]);
    [ .. | apply List.Forall_nil ].
  - left. apply of_Z_sign, Hin.
  - left. apply of_Z_sign, Hin.
  - left. apply of_Z_sign, Hin.
  - left. apply of_Z_sign, Hm.
  - destruct (Z.eq_dec (Limit (MemoryStats_ s)) 0) as [E | E].
    + right. right. split; [ reflexivity | exact E ].
    + left. assert (Hl : 0 <= Limit (MemoryStats_ s) < 2 ^ 64) by apply Hm.
      apply (percent_cases _ _ (Hin _) Hl). lia.
  - left. apply of_Z_sign, Hrx.
  - left. apply of_Z_sign, Htx.
  - destruct (Z.eq_dec (systemDelta s) 0) as [E | E].
    + right. left. split; [ reflexivity | exact E ].
    + left. assert (Hs : 0 <= systemDelta s < 2 ^ 64) by apply wrap_in_range.
      apply (percent_cases _ _ (Hin _) Hs). lia.
  - left. apply seconds_sign, Hc.
  - left. apply of_Z_sign, Hpid.
Qed.

Lemma snapshotA_in_range : snapshot_in_range snapshotA.
Proof.
  unfold snapshot_in_range, cpu_in_range, U64.in_range, U64.modulus.
  cbn [snapshotA CPUStats_ PreCPUStats CPUUsage_ TotalUsage SystemUsage
       Networks PidsStats_ Current].
  split; [ lia | ]. split; [ lia | ]. split; [ exact snapshotA_mem_in_range | ].
  split; [ | lia ].
  intros k n H. apply lookup_singleton_Some in H as [_ <-].
  cbn [RxBytes TxBytes]. lia.
Defined.

Lemma resource_values_are_numbers_witness :
  snapshot_in_range snapshotA /\
  Forall (fun m =>
            F64.has_sign false (value m) = true \/
            (metric_name m = "dex_cpu_utilization_percent" /\ systemDelta snapshotA = 0) \/
            (metric_name m = "dex_memory_utilization_percent" /\
             Limit (MemoryStats_ snapshotA) = 0))
         (emitted (resourceMetrics snapshotA "web-1")).
Proof.
  split; [ exact snapshotA_in_range | ].
  apply (resource_values_are_numbers snapshotA "web-1" snapshotA_in_range).
Defined.

(** ** Exact conversions *)

Lemma binary_round_aux_exact (sx : bool) (m : positive) (e : Z) :
  Zdigits2 (Z.pos m) = 53 -> -1074 <= e <= 971 ->
  binary_round_aux 53 1024 sx (Z.pos m) e loc_Exact = S754_finite sx m e.
Proof.
  intros Hd He. unfold binary_round_aux, shr_fexp. rewrite Hd.
  replace (fexp 53 1024 (53 + e) - e) with 0 by (unfold fexp, emin; lia).
  cbn [shr shr_record_of_loc shr_m loc_of_shr_record round_nearest_even].
  rewrite Hd.
  replace (fexp 53 1024 (53 + e) - e) with 0 by (unfold fexp, emin; lia).
  cbn [shr shr_record_of_loc shr_m].
  replace (e <=? 1024 - 53) with true by (symmetry; apply Z.leb_le; lia).
  reflexivity.
Qed.

Lemma Zdigits2_53 (m : Z) : 2 ^ 52 <= m < 2 ^ 53 -> Zdigits2 m = 53.
Proof.
  intros [Hlo Hhi]. assert (Hm : 0 < m) by lia.
  pose proof (Zdigits2_le m 53 Hm Hhi ltac:(lia)) as Hle.
  destruct (Zdigits2_bounds m Hm) as [[_ Hup] Hpos].
  assert (52 < Zdigits2 m); [ | lia ].
  apply (Z.pow_lt_mono_r_iff 2); lia.
Qed.

Lemma of_Z_exact (z : Z) : 0 <= z < 2 ^ 53 -> represents (F64.of_Z z) z.
Proof.
  intros [Hlo Hhi]. destruct z as [ | p | p ]; try lia; [ reflexivity | ].
  unfold F64.of_Z, F64.prec, F64.emax. cbn [binary_normalize]. unfold binary_round.
  assert (Hz : 0 < Z.pos p) by lia.
  destruct (Zdigits2_bounds (Z.pos p) Hz) as [[Dlo Dhi] Dpos].
  pose proof (Zdigits2_le (Z.pos p) 53 Hz Hhi ltac:(lia)) as D53.
  cbn [Zdigits2] in *. set (d := Z.pos (digits2_pos p)) in *.
  assert (Ef : fexp 53 1024 (d + 0) = d - 53) by (unfold fexp, emin; lia).
  rewrite Ef. unfold shl_align.
  destruct (d - 53 - 0) as [ | k | k ] eqn:Ek; try lia.
  - assert (Ed : d = 53) by lia.
    rewrite binary_round_aux_exact; [ | cbn [Zdigits2]; fold d; exact Ed | lia ].
    cbn [represents]. split; [ lia | ]. cbn. lia.
  - assert (Hv := iter_xO_value p k).
    assert (Hk : Z.pos k = 53 - d) by lia.
    assert (H52 : 2 ^ 52 <= Z.pos (Pos.iter xO p k) < 2 ^ 53).
    { rewrite Hv, Hk.
      assert (E52 : 2 ^ 52 = 2 ^ (d - 1) * 2 ^ (53 - d)).
      { rewrite <- Z.pow_add_r by lia. f_equal. lia. }
      assert (E53 : 2 ^ 53 = 2 ^ d * 2 ^ (53 - d)).
      { rewrite <- Z.pow_add_r by lia. f_equal. lia. }
      assert (Hp : 0 < 2 ^ (53 - d)) by (apply Z.pow_pos_nonneg; lia).
      rewrite E52, E53. split.
      - apply Z.mul_le_mono_nonneg_r; lia.
      - apply Z.mul_lt_mono_pos_r; lia. }
    rewrite binary_round_aux_exact; [ | apply Zdigits2_53; exact H52 | lia ].
    cbn [represents]. split; [ lia | ].
    rewrite Hv. f_equal. f_equal. lia.
Qed.

(** X13. The integer-valued resource metrics are converted without
    rounding below [2^53]: for the block I/O totals, the memory usage, the
    memory limit, the two ["eth0"] byte counts and the pid count, when the
    integer is less than [2^53] the value sent is exactly that integer. *)
Theorem integer_metrics_are_exact (s : StatsResponse) (cName name : string) (z : Z) :
  In (name, z)
     [("dex_block_io_read_bytes_total",
       fst (blockIoTotals (IoServiceBytesRecursive (BlkioStats_ s))));
      ("dex_block_io_write_bytes_total",
       snd (blockIoTotals (IoServiceBytesRecursive (BlkioStats_ s))));
      ("dex_memory_usage_bytes",
       U64.sub (Usage (MemoryStats_ s)) (default 0 (Stats (MemoryStats_ s) !! "cache")));
      ("dex_memory_total_bytes", Limit (MemoryStats_ s));
      ("dex_network_rx_bytes_total",
       RxBytes (default zeroNetworkStats (Networks s !! "eth0")));
      ("dex_network_tx_bytes_total",
       TxBytes (default zeroNetworkStats (Networks s !! "eth0")));
      ("dex_pids_current", Current (PidsStats_ s))] ->
  0 <= z < 2 ^ 53 ->
  exists v,
    value_of name (emitted (resourceMetrics s cName)) = Some v /\ represents v z.
Proof.
  intros Hin Hz. exists (F64.of_Z z). split; [ | apply of_Z_exact; exact Hz ].
  unfold emitted, resourceMetrics, blockIoMetrics in *.
  destruct (blockIoTotals _) as [readTotal writeTotal]. cbn [fst snd] in Hin.
  cbn [In] in Hin.
  repeat (destruct Hin as [Hin | Hin]; [ injection Hin as <- <-; reflexivity | ]).
  destruct Hin.
Qed.

Lemma integer_metrics_are_exact_witness :
  0 <= Limit (MemoryStats_ snapshotA) < 2 ^ 53 /\
  exists v,
    value_of "dex_memory_total_bytes" (emitted (resourceMetrics snapshotA "web-1")) = Some v /\
    represents v 209715200.
Proof.
  assert (Hz : 0 <= Limit (MemoryStats_ snapshotA) < 2 ^ 53) by (cbn; lia).
  split; [ exact Hz | ].
  apply (integer_metrics_are_exact snapshotA "web-1" "dex_memory_total_bytes"
           (Limit (MemoryStats_ snapshotA))); [ | exact Hz ].
  right. right. right. left. reflexivity.
Defined.

(** ** Normalised names *)

Lemma Join_head_separator (a : string) (rest : list string) :
  Join (String "/" a :: rest) ";" = String "/" (Join (a :: rest) ";").
Proof. destruct rest; reflexivity. Qed.

(** X14. Only the first name of a container loses its leading separator:
    a record whose first name is ["/" ++ a] is normalised to the names
    joined by [";"] with [a] in front, so a second name keeps its own
    separator; a record without names is normalised to the empty string;
    and a first name that does not start with ["/"] is left as it is. *)
Theorem first_name_loses_separator (cont : Summary) :
  (Names cont = [] -> normalized cont = "") /\
  (forall a rest,
     Names cont = String "/" a :: rest ->
     normalized cont = Join (a :: rest) ";") /\
  (forall a b,
     Names cont = [String "/" a; String "/" b] ->
     normalized cont = (a ++ ";/" ++ b)%string) /\
  (forall ch0 a rest,
     Names cont = String ch0 a :: rest -> byte_val ch0 <> 47 ->
     normalized cont = Join (Names cont) ";").
Proof.
  unfold normalized. rewrite TrimPrefix_separator.
  split; [ | split; [ | split ] ].
  - intros ->. reflexivity.
  - intros a rest ->. rewrite Join_head_separator. reflexivity.
  - intros a b ->. reflexivity.
  - intros ch0 a rest E Hne. rewrite E.
    assert (Hj : exists t, Join (String ch0 a :: rest) ";" = String ch0 t)
      by (destruct rest; eexists; reflexivity).
    destruct Hj as [t ->]. cbn [strip_one_separator].
    apply Z.eqb_neq in Hne. rewrite Hne. reflexivity.
Qed.

(** ** Start-up *)

(** X15. [newDockerCollector] ends the process with status 1, after one
    fatal log entry, when the client cannot be created or when the pattern
    does not compile, the first taking precedence; the pattern is the value
    of [DEX_FILTER_CONTAINER] when the variable is set, even to the empty
    string, and [.*] only when it is unset; otherwise the collector holds
    the client and the compiled pattern, and nothing is sent or called. *)
Theorem startup (os : Startup) (p : Process) :
  let pattern :=
    match environ os !! "DEX_FILTER_CONTAINER" with
    | Some v => v
    | None => ".*"
    end in
  newDockerCollector os p =
  match NewClientWithOpts os with
  | Err err =>
      Exit 1 {| ch := ch p;
                logged := logged p ++
                  [{| level := FatalLevel;
                      message := ("can't create docker client: " ++ err)%string |}];
                calls := calls p |}
  | Ok client =>
      match Compile os pattern with
      | Err err =>
          Exit 1 {| ch := ch p;
                    logged := logged p ++
                      [{| level := FatalLevel;
                          message := ("invalid container filter regexp '" ++ pattern
                                      ++ "': " ++ err)%string |}];
                    calls := calls p |}
      | Ok re => Next {| cli := client; containerRe := re |} p
      end
  end.
Proof.
  cbv zeta. unfold newDockerCollector, LookupEnv, bind.
  destruct (NewClientWithOpts os) as [ client | err ]; [ | reflexivity ].
  cbn [ret].
  destruct (environ os !! "DEX_FILTER_CONTAINER") as [ v | ]; cbn [negb];
    destruct (Compile os _) as [ re | err ]; reflexivity.
Qed.

Example startup_default :
  newDockerCollector os_default start = Next (dex runtimeA) start.
Proof. reflexivity. Qed.

Example startup_empty_filter :
  newDockerCollector os_empty_filter start =
  Next {| cli := runtimeA; containerRe := re_prefix "" |} start.
Proof. reflexivity. Qed.

Example startup_bad_filter :
  exited (newDockerCollector os_bad_filter start) = true /\
  logged (final (newDockerCollector os_bad_filter start)) =
    [{| level := FatalLevel;
        message := "invalid container filter regexp '(': error parsing regexp: missing closing ): `(`" |}].
Proof. split; reflexivity. Qed.

(** ** No deduplication *)

Lemma unit_first_metric (c : DockerCollector) (cont : Summary) (label : string) :
  resolve (containerRe c) (Names cont) = Some label ->
  exists m tail,
    emitted (processContainer c cont) = m :: tail /\
    metric_name m = "dex_container_running" /\ labelValues m = [label].
Proof.
  intros Hr. pose proof (resolve_cases c cont) as Hc. rewrite Hr in Hc.
  destruct Hc as (whole & groups & Hm & Hl).
  destruct (unit_labels c cont whole groups Hm) as [V _]. rewrite Hl in V.
  unfold emitted. destruct (ch (final (processContainer c cont start))) as [ | m tail ];
    [ discriminate | ].
  exists m, tail. split; [ reflexivity | ].
  cbn [map firstn] in V. unfold lifecycle_views in V.
  injection V as Hn _ _ Hlab _. split; assumption.
Qed.

(** X16. The cycle does not deduplicate: when two listed containers
    resolve to the same label and no unit ends the process, the gauge
    [dex_container_running] is sent twice with that label. *)
Theorem same_label_is_sent_twice (c : DockerCollector)
    (before between after : list Summary) (x y : Summary) (label : string) :
  ContainerList (cli c) = Ok (before ++ x :: between ++ y :: after)%list ->
  (forall cont, In cont (before ++ x :: between ++ y :: after)%list ->
                exited (processContainer c cont start) = false) ->
  resolve (containerRe c) (Names x) = Some label ->
  resolve (containerRe c) (Names y) = Some label ->
  exists l1 m1 l2 m2 l3,
    emitted (Collect c) = (l1 ++ m1 :: l2 ++ m2 :: l3)%list /\
    metric_name m1 = "dex_container_running" /\ labelValues m1 = [label] /\
    metric_name m2 = "dex_container_running" /\ labelValues m2 = [label].
Proof.
  intros Hl Hx Hrx Hry.
  pose proof (Collect_all_done c _ Hl Hx) as C.
  destruct (unit_first_metric c x label Hrx) as (m1 & t1 & E1 & N1 & L1).
  destruct (unit_first_metric c y label Hry) as (m2 & t2 & E2 & N2 & L2).
  unfold emitted at 1. rewrite C.
  rewrite flat_map_app. cbn [flat_map]. rewrite flat_map_app. cbn [flat_map].
  rewrite E1, E2.
  exists (flat_map (fun cont => emitted (processContainer c cont)) before), m1,
         (t1 ++ flat_map (fun cont => emitted (processContainer c cont)) between)%list,
         m2,
         (t2 ++ flat_map (fun cont => emitted (processContainer c cont)) after)%list.
  split; [ | repeat split; assumption ].
  cbn [app]. rewrite <- !app_assoc. reflexivity.
Qed.

Lemma same_label_is_sent_twice_witness :
  let c := {| cli := {| ContainerList := Ok [web1_exited; web1_exited];
                        ContainerInspect := ContainerInspect runtime_exited;
                        ContainerStats := ContainerStats runtime_exited |};
              containerRe := re_prefix "web-" |} in
  resolve (containerRe c) (Names web1_exited) = Some "web-" /\
  exists l1 m1 l2 m2 l3,
    emitted (Collect c) = (l1 ++ m1 :: l2 ++ m2 :: l3)%list /\
    metric_name m1 = "dex_container_running" /\ labelValues m1 = ["web-"] /\
    metric_name m2 = "dex_container_running" /\ labelValues m2 = ["web-"].
Proof.
  cbv zeta. split; [ reflexivity | ].
  apply (same_label_is_sent_twice _ [] [] [] web1_exited web1_exited "web-").
  - reflexivity.
  - intros cont [ <- | [ <- | [] ] ]; reflexivity.
  - reflexivity.
  - reflexivity.
Defined.
